(** * Retrieval substrate of the RAG system: chunker, vector store, retriever

    A shallow embedding of [document_processor.py], [vector_store.py],
    [retriever.py] and the upload loop of [app.py], with the properties of
    the design document stated and proved (or refuted) over it. *)

From Stdlib Require Import ZArith QArith Lia Lqa List Ascii String.
From Stdlib Require Import DecimalString DecimalZ Sorted Permutation.
From stdpp Require Import base option list sorting gmap sets strings.

Local Open Scope Z_scope.

(** ** Python primitives *)

Module Py.

(** Exceptions the modelled code raises or lets through. *)
Inductive exn : Type :=
| FileNotFoundError (path : string)
| ValueError (msg : string)
| ExtractionError (msg : string)        (* raised by a reader library *)
| EmbeddingServiceError (msg : string)  (* raised by the embeddings client *)
| DataError (msg : string).             (* raised by the database server *)

(** The result of a call: a value, or an exception on its way up. *)
Inductive outcome (A : Type) : Type :=
| Returned (a : A)
| Raised (e : exn).
Arguments Returned {A} a.
Arguments Raised {A} e.

#[global] Instance outcome_ret : MRet outcome := fun A a => Returned a.

#[global] Instance outcome_bind : MBind outcome := fun A B k m =>
  match m with
  | Returned a => k a
  | Raised e => Raised e
  end.

#[global] Instance outcome_fmap : FMap outcome := fun A B f m =>
  match m with
  | Returned a => Returned (f a)
  | Raised e => Raised e
  end.

(** [l[start:stop]] for integer bounds: a negative bound counts from the
    end, and both are clamped to [0, len(l)]. *)
Definition clamp (n i : Z) : Z :=
  if i <? 0 then Z.max (i + n) 0 else Z.min i n.

Definition slice {A} (l : list A) (start stop : Z) : list A :=
  let n := Z.of_nat (length l) in
  let s := clamp n start in
  let e := clamp n stop in
  firstn (Z.to_nat (e - s)) (skipn (Z.to_nat s) l).

(** [str(i)] for an int. *)
Definition str (i : Z) : string := NilEmpty.string_of_int (Z.to_int i).

(** [range(lo, hi)]. *)
Definition range (lo hi : Z) : list Z :=
  map (fun k => lo + Z.of_nat k) (seq 0 (Z.to_nat (hi - lo))).

(** [s.replace(a, b)] for single characters. *)
Fixpoint replace_char (a b : ascii) (s : string) : string :=
  match s with
  | EmptyString => EmptyString
  | String c s' =>
      String (if Ascii.eqb c a then b else c) (replace_char a b s')
  end.

(** [s.lower()] on the ASCII letters. *)
Definition lower_char (c : ascii) : ascii :=
  let n := nat_of_ascii c in
  if ((65 <=? n)%nat && (n <=? 90)%nat)%bool then ascii_of_nat (n + 32) else c.

Fixpoint lower (s : string) : string :=
  match s with
  | EmptyString => EmptyString
  | String c s' => String (lower_char c) (lower s')
  end.

(** [s.rfind(c)] as the suffix of [s] that starts at the last [c]. *)
Fixpoint from_last (c : ascii) (s : string) : option string :=
  match s with
  | EmptyString => None
  | String a s' =>
      match from_last c s' with
      | Some t => Some t
      | None => if Ascii.eqb a c then Some s else None
      end
  end.

(** A stable insertion sort, for [list.sort(key=...)] and for ORDER BY:
    [x] goes after the elements that are strictly smaller and before the
    first that is not, so that elements that compare equal keep the order
    they had in the list. *)
Fixpoint insert_by {A} (lt : A -> A -> bool) (x : A) (l : list A) : list A :=
  match l with
  | [] => [x]
  | y :: l' => if lt y x then y :: insert_by lt x l' else x :: l
  end.

Definition sort_by {A} (lt : A -> A -> bool) (l : list A) : list A :=
  fold_right (insert_by lt) [] l.

Definition sort_by_key {A} (key : A -> Z) (l : list A) : list A :=
  sort_by (fun x y => key x <? key y) l.

End Py.

(** ** [hashlib.md5(...).hexdigest()] after RFC 1321 *)

Module MD5.

Definition mask32 : Z := 4294967295.
Definition add32 (a b : Z) : Z := Z.land (a + b) mask32.
Definition not32 (a : Z) : Z := Z.lxor a mask32.
Definition rotl32 (x n : Z) : Z :=
  Z.land (Z.lor (Z.shiftl x n) (Z.shiftr x (32 - n))) mask32.

Definition K : list Z :=
  [ 3614090360; 3905402710; 606105819; 3250441966; 4118548399; 1200080426;
    2821735955; 4249261313; 1770035416; 2336552879; 4294925233; 2304563134;
    1804603682; 4254626195; 2792965006; 1236535329; 4129170786; 3225465664;
    643717713; 3921069994; 3593408605; 38016083; 3634488961; 3889429448;
    568446438; 3275163606; 4107603335; 1163531501; 2850285829; 4243563512;
    1735328473; 2368359562; 4294588738; 2272392833; 1839030562; 4259657740;
    2763975236; 1272893353; 4139469664; 3200236656; 681279174; 3936430074;
    3572445317; 76029189; 3654602809; 3873151461; 530742520; 3299628645;
    4096336452; 1126891415; 2878612391; 4237533241; 1700485571; 2399980690;
    4293915773; 2240044497; 1873313359; 4264355552; 2734768916; 1309151649;
    4149444226; 3174756917; 718787259; 3951481745 ].

Definition shifts : list Z :=
  [ 7; 12; 17; 22; 7; 12; 17; 22; 7; 12; 17; 22; 7; 12; 17; 22;
    5; 9; 14; 20; 5; 9; 14; 20; 5; 9; 14; 20; 5; 9; 14; 20;
    4; 11; 16; 23; 4; 11; 16; 23; 4; 11; 16; 23; 4; 11; 16; 23;
    6; 10; 15; 21; 6; 10; 15; 21; 6; 10; 15; 21; 6; 10; 15; 21 ].

Definition state : Type := (Z * Z * Z * Z)%type.

Definition init : state := (1732584193, 4023233417, 2562383102, 271733878).

Definition at_ (l : list Z) (i : Z) : Z := nth (Z.to_nat i) l 0.

Definition step (M : list Z) (st : state) (i : Z) : state :=
  let '(a, b, c, d) := st in
  let '(f, g) :=
    if i <? 16 then (Z.lor (Z.land b c) (Z.land (not32 b) d), i)
    else if i <? 32 then
      (Z.lor (Z.land d b) (Z.land (not32 d) c), (5 * i + 1) mod 16)
    else if i <? 48 then (Z.lxor (Z.lxor b c) d, (3 * i + 5) mod 16)
    else (Z.lxor c (Z.lor b (not32 d)), (7 * i) mod 16) in
  let f' := add32 (add32 (add32 f a) (at_ K i)) (at_ M g) in
  (d, add32 b (rotl32 f' (at_ shifts i)), b, c).

Definition compress (st : state) (M : list Z) : state :=
  let '(a, b, c, d) := st in
  let '(a', b', c', d') := fold_left (step M) (Py.range 0 64) st in
  (add32 a a', add32 b b', add32 c c', add32 d d').

Definition bytes_of (s : string) : list Z :=
  map (fun c => Z.of_N (N_of_ascii c)) (list_ascii_of_string s).

Definition le_bytes (n : nat) (x : Z) : list Z :=
  map (fun k => Z.land (Z.shiftr x (8 * Z.of_nat k)) 255) (seq 0 n).

Definition pad (msg : list Z) : list Z :=
  let len := Z.of_nat (length msg) in
  msg ++ [128] ++ repeat 0 (Z.to_nat ((55 - len) mod 64))
      ++ le_bytes 8 (8 * len).

Definition word_of (bs : list Z) : Z :=
  fold_right (fun b acc => b + 256 * acc) 0 bs.

Fixpoint group (n k : nat) (l : list Z) : list (list Z) :=
  match n with
  | O => []
  | S n' => firstn k l :: group n' k (skipn k l)
  end.

Definition blocks (bs : list Z) : list (list Z) :=
  map (fun blk => map word_of (group 16 4 blk))
      (group (Nat.div (length bs) 64) 64 bs).

Definition hex_digit (n : Z) : ascii :=
  ascii_of_nat (Z.to_nat (if n <? 10 then 48 + n else 87 + n)).

Definition hex_byte (b : Z) : string :=
  String (hex_digit (b / 16)) (String (hex_digit (b mod 16)) EmptyString).

Definition hexdigest (s : string) : string :=
  let '(a, b, c, d) := fold_left compress (blocks (pad (bytes_of s))) init in
  String.concat EmptyString
    (map hex_byte (le_bytes 4 a ++ le_bytes 4 b ++ le_bytes 4 c ++ le_bytes 4 d)).

End MD5.

(** ** External collaborators

    Libraries and services the code calls; the development is parametric
    in them. *)

(** [tiktoken.get_encoding("cl100k_base")], taken as a total tokenizer. *)
Class Encoding := {
  token : Type;
  encode : string -> list token;
  decode : list token -> string
}.

(** [hashlib.md5(s.encode()).hexdigest()]. *)
Class Hash := { md5 : string -> string }.

(** [client.embeddings.create(...).data[0].embedding]; the service may fail. *)
Class Embedder := { embeddings_create : string -> Py.outcome (list Q) }.

(** [tempfile.NamedTemporaryFile(delete=False, suffix=...)] and
    [tmp.write(...)]: the file system takes the bytes under the path, or
    raises (a name it refuses, no space left). *)
Class TempDir := { write_tmp : string -> string -> Py.outcome unit }.

(** The text extraction libraries, as functions of the bytes of a file. *)
Class Readers := {
  pdf_text : string -> Py.outcome string;
  docx_text : string -> Py.outcome string;
  utf8_text : string -> Py.outcome string;
  html_text : string -> Py.outcome string
}.

(** ** Data model *)

Record Metadata := {
  source : string;
  chunk_index : Z;
  processed_date : string;
  token_count : Z
}.

(** A chunk dictionary; the keys ["embedding"] and ["score"] are optional. *)
Record Chunk := {
  id : string;
  text : string;
  metadata : Metadata;
  embedding : option (list Q);
  score : option Q
}.

(** A row of the [documents] table, without its primary key. *)
Record Row := {
  content : string;
  row_metadata : Metadata;
  row_embedding : list Q
}.

(** The database server with pgvector: the [<=>] operator, and the order in
    which the rows matching [id = ANY(ids)] come back. That statement has
    no ORDER BY, so the order is the server's choice; it may depend on the
    list of ids asked for. *)
Class Pgvector := {
  cosine_distance : list Q -> list Q -> Q;
  fetch_order : list string -> list (string * Row) -> list (string * Row);
  fetch_order_perm : forall ids rows, fetch_order ids rows ≡ₚ rows
}.

(** The [documents] table, keyed by the primary key [id], and the number of
    connections opened so far. *)
Record Database := {
  documents : gmap string Row;
  connections : nat
}.

Definition set_source (c : Chunk) (name : string) : Chunk :=
  {| id := id c; text := text c;
     metadata := {| source := name;
                    chunk_index := chunk_index (metadata c);
                    processed_date := processed_date (metadata c);
                    token_count := token_count (metadata c) |};
     embedding := embedding c; score := score c |}.

(** ** document_processor.py *)

Module DocumentProcessor.

Record t := { chunk_size : Z; chunk_overlap : Z }.

Definition __init__ (chunk_size chunk_overlap : Z) : t :=
  {| chunk_size := chunk_size; chunk_overlap := chunk_overlap |}.

(** [DocumentProcessor()] *)
Definition default : t := __init__ 800 100.

Section Chunking.
Context `{Encoding} `{Hash}.

(** The dictionary built for the window that begins at [start]. [clock k] is
    what [datetime.now().isoformat()] returns while chunk [k] is built. *)
Definition window_chunk (self : t) (clock : Z -> string) (tokens : list token)
    (filename : string) (start chunk_index : Z) : Chunk :=
  let total_tokens := Z.of_nat (length tokens) in
  let end_ := Z.min (start + chunk_size self) total_tokens in
  let chunk_tokens := Py.slice tokens start end_ in
  let chunk_text := decode chunk_tokens in
  let chunk_id := md5 (filename +:+ "_" +:+ Py.str chunk_index) in
  {| id := chunk_id;
     text := chunk_text;
     metadata := {| source := filename;
                    chunk_index := chunk_index;
                    processed_date := clock chunk_index;
                    token_count := Z.of_nat (length chunk_tokens) |};
     embedding := None;
     score := None |}.

(** How one pass through the body of the [while] loop ends. *)
Inductive control : Type :=
| Break (chunks : list Chunk)
| Continue (start chunk_index : Z) (chunks : list Chunk).

Definition loop_body (self : t) (clock : Z -> string) (tokens : list token)
    (filename : string) (start chunk_index : Z) (chunks : list Chunk) : control :=
  let total_tokens := Z.of_nat (length tokens) in
  let end_ := Z.min (start + chunk_size self) total_tokens in
  let chunks := chunks ++ [window_chunk self clock tokens filename start chunk_index] in
  if end_ =? total_tokens then Break chunks
  else Continue (start + (chunk_size self - chunk_overlap self))
                (chunk_index + 1) chunks.

(** The [while start < total_tokens] loop; one unit of fuel per evaluation
    of the loop condition. *)
Fixpoint chunk_loop (fuel : nat) (self : t) (clock : Z -> string)
    (tokens : list token) (filename : string)
    (start chunk_index : Z) (chunks : list Chunk) : option (list Chunk) :=
  match fuel with
  | O => None
  | S fuel' =>
      if start <? Z.of_nat (length tokens) then
        match loop_body self clock tokens filename start chunk_index chunks with
        | Break chunks => Some chunks
        | Continue start chunk_index chunks =>
            chunk_loop fuel' self clock tokens filename start chunk_index chunks
        end
      else Some chunks
  end.

(** [None]: the loop is still running after [fuel] iterations. *)
Definition _chunk_content (fuel : nat) (self : t) (clock : Z -> string)
    (content filename : string) : option (list Chunk) :=
  chunk_loop fuel self clock (encode content) filename 0 0 [].

End Chunking.

(** [Path(p).name]: the last component of a normalised path. *)
Definition path_name (p : string) : string :=
  match Py.from_last "/" p with
  | Some (String _ n) => n
  | _ => p
  end.

(** [Path(p).suffix] *)
Definition path_suffix (p : string) : string :=
  let name := path_name p in
  match Py.from_last "." name with
  | Some t =>
      if ((String.length t <? String.length name)%nat
          && (1 <? String.length t)%nat)%bool
      then t else EmptyString
  | None => EmptyString
  end.

Section Processing.
Context `{Encoding} `{Hash} `{Readers}.

Definition read_with (reader : string -> Py.outcome string)
    (fs : gmap string string) (path : string) : Py.outcome string :=
  match fs !! path with
  | Some bytes => reader bytes
  | None => Py.Raised (Py.FileNotFoundError path)
  end.

Definition _read_pdf := read_with pdf_text.
Definition _read_docx := read_with docx_text.
Definition _read_text := read_with utf8_text.
Definition _read_html := read_with html_text.

(** [fs] maps the paths of the existing files to their bytes. The
    [except Exception] clause prints and returns the empty list. *)
Definition process_file (fuel : nat) (self : t) (clock : Z -> string)
    (fs : gmap string string) (file_path : string)
    : option (Py.outcome (list Chunk)) :=
  if negb (bool_decide (is_Some (fs !! file_path))) then
    Some (Py.Raised (Py.FileNotFoundError file_path))
  else
    let file_ext := Py.lower (path_suffix file_path) in
    let content :=
      if String.eqb file_ext ".pdf" then _read_pdf fs file_path
      else if String.eqb file_ext ".docx" then _read_docx fs file_path
      else if (String.eqb file_ext ".txt" || String.eqb file_ext ".md")%bool
      then _read_text fs file_path
      else if String.eqb file_ext ".html" then _read_html fs file_path
      else Py.Raised (Py.ValueError ("Unsupported file type: " +:+ file_ext)) in
    match content with
    | Py.Returned content =>
        Py.Returned <$> _chunk_content fuel self clock content (path_name file_path)
    | Py.Raised _ => Some (Py.Returned [])
    end.

End Processing.

End DocumentProcessor.

(** ** vector_store.py *)

(** A store operation: it may raise, and it leaves a database behind. *)
Definition DB (A : Type) : Type := Database -> Py.outcome A * Database.

#[global] Instance DB_ret : MRet DB := fun A a db => (Py.Returned a, db).

#[global] Instance DB_bind : MBind DB := fun A B k m db =>
  match m db with
  | (Py.Returned a, db') => k a db'
  | (Py.Raised e, db') => (Py.Raised e, db')
  end.

Module VectorStore.

(** [embedding vector(3072)] *)
Definition EMBEDDING_DIM : nat := 3072.

(** [self._get_conn()] *)
Definition _get_conn : DB unit := fun db =>
  (Py.Returned tt,
   {| documents := documents db; connections := S (connections db) |}).

(** The projection [SELECT id, content, metadata] as a dictionary. *)
Definition payload (ir : string * Row) : Chunk :=
  {| id := ir.1; text := content ir.2; metadata := row_metadata ir.2;
     embedding := None; score := None |}.

Section Store.
Context `{Embedder} `{Pgvector}.

Definition get_embedding (text : string) : Py.outcome (list Q) :=
  embeddings_create (Py.replace_char "010"%char " "%char text).

(** [INSERT ... ON CONFLICT (id) DO UPDATE] on the tables of the open
    transaction; the server refuses a vector of another dimension. *)
Definition execute_upsert (chunk : Chunk) (emb : list Q)
    (pending : gmap string Row) : Py.outcome (gmap string Row) :=
  if decide (length emb = EMBEDDING_DIM) then
    Py.Returned (<[id chunk := {| content := text chunk;
                                  row_metadata := metadata chunk;
                                  row_embedding := emb |}]> pending)
  else Py.Raised (Py.DataError "expected 3072 dimensions").

(** The [for chunk in chunks] loop, inside the transaction. *)
Fixpoint add_loop (chunks : list Chunk) (pending : gmap string Row)
    : Py.outcome (gmap string Row) :=
  match chunks with
  | [] => Py.Returned pending
  | chunk :: rest =>
      emb ← get_embedding (text chunk);
      pending' ← execute_upsert chunk emb pending;
      add_loop rest pending'
  end.

(** [with self._get_conn() as conn]: the block runs in one transaction,
    committed when the block ends and rolled back when it raises. *)
Definition add_documents (chunks : list Chunk) : DB unit := fun db =>
  let (_, db) := _get_conn db in
  match add_loop chunks (documents db) with
  | Py.Returned pending =>
      (Py.Returned tt,
       {| documents := pending; connections := connections db |})
  | Py.Raised e => (Py.Raised e, db)
  end.

Definition delete_document (filename : string) : DB unit := fun db =>
  let (_, db) := _get_conn db in
  (Py.Returned tt,
   {| documents :=
        filter (fun ir => source (row_metadata ir.2) ≠ filename) (documents db);
      connections := connections db |}).

(** [ORDER BY embedding <=> q]: ascending distance. Among rows at the same
    distance the statement fixes no order; here they come in the order of
    their keys. *)
Definition closer (q : list Q) (x y : string * Row) : bool :=
  negb (Qle_bool (cosine_distance (row_embedding y.2) q)
                 (cosine_distance (row_embedding x.2) q)).

Definition scored (q : list Q) (ir : string * Row) : Chunk :=
  {| id := ir.1; text := content ir.2; metadata := row_metadata ir.2;
     embedding := None;
     score := Some (1 - cosine_distance (row_embedding ir.2) q)%Q |}.

(** The server refuses a negative LIMIT. *)
Definition query (query_text : string) (limit : Z) : DB (list Chunk) := fun db =>
  match get_embedding query_text with
  | Py.Raised e => (Py.Raised e, db)
  | Py.Returned query_embedding =>
      let (_, db) := _get_conn db in
      if limit <? 0 then
        (Py.Raised (Py.DataError "LIMIT must not be negative"), db)
      else
        let rows :=
          take (Z.to_nat limit)
               (Py.sort_by (closer query_embedding) (map_to_list (documents db))) in
        (Py.Returned (map (scored query_embedding) rows), db)
  end.

Definition get_chunks_by_ids (chunk_ids : list string) : DB (list Chunk) := fun db =>
  match chunk_ids with
  | [] => (Py.Returned [], db)
  | _ =>
      let (_, db) := _get_conn db in
      (Py.Returned
         (map payload
              (fetch_order chunk_ids
                 (filter (fun ir => ir.1 ∈ chunk_ids) (map_to_list (documents db))))),
       db)
  end.

(** [SELECT DISTINCT metadata->>'source']; the statement fixes no order,
    here the sources come in the order of the keys of their first rows. *)
Definition get_all_documents : DB (list string) := fun db =>
  let (_, db) := _get_conn db in
  (Py.Returned
     (remove_dups (map (fun ir => source (row_metadata ir.2))
                       (map_to_list (documents db)))),
   db).

End Store.

End VectorStore.

(** ** retriever.py *)

Record ChunkContext := { before : list Chunk; after : list Chunk }.

Record Expanded := { primary : Chunk; context : ChunkContext }.

Module Retriever.

Section Retrieve.
Context `{Hash} `{Embedder} `{Pgvector}.

Definition _generate_chunk_id (filename : string) (index : Z) : string :=
  md5 (filename +:+ "_" +:+ Py.str index).

(** Step 2, inner loop: the candidate ids around one primary chunk. *)
Definition add_neighbours (adjacency_window : Z) (adjacent_ids : gset string)
    (chunk : Chunk) : gset string :=
  let filename := source (metadata chunk) in
  let current_index := chunk_index (metadata chunk) in
  fold_left
    (fun adjacent_ids i =>
       let prev_index := current_index - i in
       let next_index := current_index + i in
       let adjacent_ids :=
         if 0 <=? prev_index
         then adjacent_ids ∪ {[ _generate_chunk_id filename prev_index ]}
         else adjacent_ids in
       adjacent_ids ∪ {[ _generate_chunk_id filename next_index ]})
    (Py.range 1 (adjacency_window + 1)) adjacent_ids.

Definition ids_to_fetch (primary_chunks : list Chunk) (adjacency_window : Z)
    : list string :=
  let adjacent_ids := fold_left (add_neighbours adjacency_window) primary_chunks ∅ in
  let primary_ids : gset string := list_to_set (map id primary_chunks) in
  elements (adjacent_ids ∖ primary_ids).

(** [{c['id']: c for c in context_chunks}] *)
Definition context_map_of (context_chunks : list Chunk) : gmap string Chunk :=
  fold_left (fun m c => <[id c := c]> m) context_chunks ∅.

(** Step 4 for one primary chunk. *)
Definition chunk_context (adjacency_window : Z) (context_map : gmap string Chunk)
    (chunk : Chunk) : ChunkContext :=
  let filename := source (metadata chunk) in
  let current_index := chunk_index (metadata chunk) in
  let '(before, after) :=
    fold_left
      (fun '(before, after) i =>
         let prev_id := _generate_chunk_id filename (current_index - i) in
         let next_id := _generate_chunk_id filename (current_index + i) in
         (match context_map !! prev_id with
          | Some c => before ++ [c]
          | None => before
          end,
          match context_map !! next_id with
          | Some c => after ++ [c]
          | None => after
          end))
      (Py.range 1 (adjacency_window + 1)) ([], []) in
  {| before := Py.sort_by_key (fun x => chunk_index (metadata x)) before;
     after := Py.sort_by_key (fun x => chunk_index (metadata x)) after |}.

Definition retrieve (query : string) (top_k adjacency_window : Z)
    : DB (list Expanded) :=
  primary_chunks ← VectorStore.query query top_k;
  context_chunks ←
    VectorStore.get_chunks_by_ids (ids_to_fetch primary_chunks adjacency_window);
  let context_map := context_map_of context_chunks in
  mret (map (fun chunk =>
               {| primary := chunk;
                  context := chunk_context adjacency_window context_map chunk |})
            primary_chunks).

End Retrieve.

End Retriever.

(** ** app.py: the upload loop *)

Module App.

(** An uploaded file, with what the environment chooses while it is
    handled: the random part of the temporary file name and the readings
    of the clock. *)
Record UploadedFile := {
  name : string;
  getvalue : string;
  tmp_token : string;
  clock : Z -> string
}.

(** What the page shows for one file. *)
Inductive Report : Type :=
| Indexed (name : string) (chunks : nat)
| NoContent (name : string)
| Failed (name : string) (e : Py.exn).

(** [tempfile.NamedTemporaryFile(delete=False, suffix=f"_{name}").name] *)
Definition tmp_path (f : UploadedFile) : string :=
  "/tmp/tmp" +:+ tmp_token f +:+ "_" +:+ name f.

(** [processor = DocumentProcessor()] *)
Definition processor : DocumentProcessor.t := DocumentProcessor.default.

Section Upload.
Context `{Encoding} `{Hash} `{Readers} `{Embedder} `{Pgvector}.

(** The [try] statement in the body of
    [for idx, uploaded_file in enumerate(uploaded_files)], for an upload
    whose temporary file has been written; [None] when the chunker does not
    return within [fuel] iterations. *)
Definition process_upload (fuel : nat)
    (fs : gmap string string) (uploaded_file : UploadedFile) (db : Database)
    : option (Report * Database) :=
  let tmp := tmp_path uploaded_file in
  r ← DocumentProcessor.process_file fuel processor (clock uploaded_file)
        (<[tmp := getvalue uploaded_file]> fs) tmp;
  match r with
  | Py.Raised e => Some (Failed (name uploaded_file) e, db)
  | Py.Returned [] => Some (NoContent (name uploaded_file), db)
  | Py.Returned chunks =>
      let chunks := map (fun chunk => set_source chunk (name uploaded_file)) chunks in
      match VectorStore.add_documents chunks db with
      | (Py.Returned _, db') =>
          Some (Indexed (name uploaded_file) (length chunks), db')
      | (Py.Raised e, db') => Some (Failed (name uploaded_file) e, db')
      end
  end.

(** The loop over uploads whose temporary files are all written. *)
Fixpoint process_uploads (fuel : nat)
    (fs : gmap string string) (uploaded_files : list UploadedFile) (db : Database)
    : option (list Report * Database) :=
  match uploaded_files with
  | [] => Some ([], db)
  | f :: rest =>
      '(r, db') ← process_upload fuel fs f db;
      '(rs, db'') ← process_uploads fuel fs rest db';
      Some (r :: rs, db'')
  end.

End Upload.

Section Loop.
Context `{Encoding} `{Hash} `{Readers} `{Embedder} `{Pgvector} `{TempDir}.

(** [with tempfile.NamedTemporaryFile(...) as tmp: tmp.write(...)]; the
    statement stands before the [try], so what it raises is not caught. *)
Definition save_upload (uploaded_file : UploadedFile) : Py.outcome string :=
  _ ← write_tmp (tmp_path uploaded_file) (getvalue uploaded_file);
  mret (tmp_path uploaded_file).

(** The whole body of the [for] loop. *)
Definition upload_step (fuel : nat)
    (fs : gmap string string) (uploaded_file : UploadedFile) (db : Database)
    : option (Py.outcome Report * Database) :=
  match save_upload uploaded_file with
  | Py.Raised e => Some (Py.Raised e, db)
  | Py.Returned _ =>
      '(r, db') ← process_upload fuel fs uploaded_file db;
      Some (Py.Returned r, db')
  end.

(** The [for] loop: the reports shown, the exception that ended the loop
    if one did, and the database left behind. *)
Fixpoint upload_loop (fuel : nat)
    (fs : gmap string string) (uploaded_files : list UploadedFile) (db : Database)
    : option (list Report * option Py.exn * Database) :=
  match uploaded_files with
  | [] => Some ([], None, db)
  | f :: rest =>
      '(o, db') ← upload_step fuel fs f db;
      match o with
      | Py.Raised e => Some ([], Some e, db')
      | Py.Returned r =>
          '(rs, e, db'') ← upload_loop fuel fs rest db';
          Some (r :: rs, e, db'')
      end
  end.

End Loop.

End App.

(** ** rag_pipeline.py *)

(** [client.chat.completions.create(...).choices[0].message.content], as a
    function of the system and user messages; the service may fail. *)
Class Generator := { chat_completions_create : string -> string -> Py.outcome string }.

(** [f"{x:.4f}"] for a float. *)
Class FloatFormat := { format_4f : Q -> string }.

(** The dictionary [answer_query] returns. *)
Record Answer := { answer : string; retrieval_details : list Expanded }.

Module RAGPipeline.

Definition nl : string := String "010"%char EmptyString.

Definition system_prompt : string :=
  "You are a helpful assistant for a RAG system. " +:+ nl +:+
  "Use the provided context to answer the user's question. " +:+ nl +:+
  "If the answer is not in the context, say you don't know." +:+ nl +:+
  "Cite your sources using the format [Source: filename]." +:+ nl.

Section Pipeline.
Context `{Hash} `{Embedder} `{Pgvector} `{Generator} `{FloatFormat}.

(** The lines of one block: [Before] -> [Primary] -> [After]. *)
Definition block_of (item : Expanded) : list string :=
  map (fun ctx => "(... " +:+ text ctx +:+ " ...)") (before (context item))
  ++ ["TARGET CHUNK: " +:+ text (primary item)]
  ++ map (fun ctx => "(... " +:+ text ctx +:+ " ...)") (after (context item)).

(** What one pass of the loop of [_format_context] appends to [formatted];
    [primary.get('score', 0)] is 0 when the key is missing. *)
Definition format_item (item : Expanded) : string :=
  let source := source (metadata (primary item)) in
  let score := default 0%Q (score (primary item)) in
  ("--- Document: " +:+ source +:+ " (Relevance: " +:+ format_4f score +:+ ") ---" +:+ nl)
  +:+ String.concat nl (block_of item).

Definition _format_context (results : list Expanded) : string :=
  String.concat (nl +:+ nl) (map format_item results).

(** The call of the chat service; it does not touch the store. *)
Definition create_completion (system user : string) : DB string := fun db =>
  (chat_completions_create system user, db).

(** [self.retriever.retrieve(query)] runs with [top_k = 5] and
    [adjacency_window = 1]. *)
Definition answer_query (query : string) : DB Answer :=
  retrieval_results ← Retriever.retrieve query 5 1;
  let context_text := _format_context retrieval_results in
  answer ← create_completion system_prompt
             ("Context:" +:+ nl +:+ context_text +:+ nl +:+ nl +:+ "Question: " +:+ query);
  mret {| answer := answer; retrieval_details := retrieval_results |}.

End Pipeline.

End RAGPipeline.

(** ** Notions of the design document *)

(** The ceiling of [a / b], for [0 < b]. *)
Definition ceil_div (a b : Z) : Z := (a + b - 1) / b.

(** The chunk count for [N] tokens, window [W] and overlap [O]. *)
Definition expected_count (N W O : Z) : Z :=
  if N =? 0 then 0 else if W <? N then ceil_div (N - O) (W - O) else 1.

Definition window_start (self : DocumentProcessor.t) (k : Z) : Z :=
  k * (DocumentProcessor.chunk_size self - DocumentProcessor.chunk_overlap self).

Definition window_end (self : DocumentProcessor.t) (N k : Z) : Z :=
  Z.min (window_start self k + DocumentProcessor.chunk_size self) N.

(** The chunk of the [k]-th window. *)
Definition nth_chunk `{Encoding} `{Hash} (self : DocumentProcessor.t)
    (clock : Z -> string) (tokens : list token) (filename : string) (k : Z) : Chunk :=
  DocumentProcessor.window_chunk self clock tokens filename (window_start self k) k.

(** For a strict order [lt] given as a test: [x] may stand before [y],
    that is, [y] is not strictly smaller. *)
Definition not_after {A} (lt : A -> A -> bool) (x y : A) : Prop := lt y x = false.

(** The embedding of a chunk is obtained and its row is accepted. *)
Definition chunk_ok `{Embedder} (c : Chunk) : Prop :=
  exists emb, VectorStore.get_embedding (text c) = Py.Returned emb /\
              length emb = VectorStore.EMBEDDING_DIM.

(** Obtaining the embedding of a chunk, or writing its row, fails with [e]. *)
Definition chunk_fails `{Embedder} (c : Chunk) (e : Py.exn) : Prop :=
  VectorStore.get_embedding (text c) = Py.Raised e \/
  exists emb, VectorStore.get_embedding (text c) = Py.Returned emb /\
              length emb <> VectorStore.EMBEDDING_DIM /\
              e = Py.DataError "expected 3072 dimensions".

(** The similarity a result reports. *)
Definition score_of (c : Chunk) : Q := default 0%Q (score c).

(** The text whose hash is the id of chunk [index] of [filename]. *)
Definition id_key (filename : string) (index : Z) : string :=
  filename +:+ "_" +:+ Py.str index.




(** The identity of the data model holds for a chunk dictionary. *)
Definition id_matches `{Hash} (c : Chunk) : Prop :=
  id c = md5 (id_key (source (metadata c)) (chunk_index (metadata c))).




(** [x] occurs in [s]. *)
Definition occurs_in (x s : string) : Prop := exists pre post, s = pre +:+ x +:+ post.

(** The file a report is about. *)
Definition report_name (r : App.Report) : string :=
  match r with
  | App.Indexed name _ => name
  | App.NoContent name => name
  | App.Failed name _ => name
  end.

(** The tokens of window [k] that window [k - 1] does not hold already. *)
Definition fresh_tokens {A} (self : DocumentProcessor.t) (tokens : list A) (k : Z) : list A :=
  drop (if k =? 0 then 0%nat else Z.to_nat (DocumentProcessor.chunk_overlap self))
       (Py.slice tokens (window_start self k) (window_end self (Z.of_nat (length tokens)) k)).

(** The row [add_documents] writes for a chunk and its embedding. *)
Definition row_of (c : Chunk) (emb : list Q) : Row :=
  {| content := text c; row_metadata := metadata c; row_embedding := emb |}.

(** [chunk_ok], as a test. *)
Definition chunk_ok_b `{Embedder} (c : Chunk) : bool :=
  match VectorStore.get_embedding (text c) with
  | Py.Returned emb => bool_decide (length emb = VectorStore.EMBEDDING_DIM)
  | Py.Raised _ => false
  end.

(** ** A concrete environment, to run the model *)

Module Demo.

(** One token per character. *)
#[export] Instance chars : Encoding :=
  {| token := ascii; encode := list_ascii_of_string; decode := string_of_list_ascii |}.

#[export] Instance real_md5 : Hash := {| md5 := MD5.hexdigest |}.

(** The service refuses the empty input; the vector depends on the length
    and on the first character. *)
#[export] Instance embedder : Embedder :=
  {| embeddings_create := fun t =>
       match t with
       | EmptyString => Py.Raised (Py.EmbeddingServiceError "empty input")
       | String c _ =>
           Py.Returned
             (repeat (inject_Z (256 * Z.of_nat (String.length t) + Z.of_nat (nat_of_ascii c)))
                     VectorStore.EMBEDDING_DIM)
       end |}.

(** A stand-in distance on the first coordinate; the rows asked for by id
    come back from the last key to the first. *)
#[export] Instance distance : Pgvector :=
  {| cosine_distance := fun a b =>
       let d := (hd 0 a - hd 0 b)%Q in (d * d)%Q;
     fetch_order := fun _ rows => reverse rows;
     fetch_order_perm := fun _ rows => reverse_Permutation rows |}.

(** A directory that refuses a file whose name holds a slash. *)
#[export] Instance tmpdir : TempDir :=
  {| write_tmp := fun path _ =>
       if String.eqb ("/tmp/" +:+ DocumentProcessor.path_name path) path
       then Py.Returned tt
       else Py.Raised (Py.FileNotFoundError path) |}.

#[export] Instance readers : Readers :=
  {| pdf_text := fun _ => Py.Raised (Py.ExtractionError "not a PDF");
     docx_text := fun _ => Py.Raised (Py.ExtractionError "not a DOCX");
     utf8_text := fun bytes => Py.Returned bytes;
     html_text := fun bytes => Py.Returned bytes |}.

Definition epoch : Z -> string := fun _ => "2024-01-01T00:00:00"%string.

Definition empty_db : Database := {| documents := ∅; connections := 0 |}.

(** A small configuration and a ten-token document. *)
Definition small : DocumentProcessor.t := DocumentProcessor.__init__ 4 1.

Definition doc_chunks : list Chunk :=
  default [] (DocumentProcessor._chunk_content 11 small epoch "abcdefghij" "doc.txt").

(** The table after the chunks of the document are added as the chunker
    made them. *)
Definition doc_db : Database := (VectorStore.add_documents doc_chunks empty_db).2.

(** Two chunks for one call of [add_documents]; the service refuses the
    text of the second. *)
Definition good_chunk : Chunk :=
  {| id := md5 "doc.txt_0"; text := "hello";
     metadata := {| source := "doc.txt"; chunk_index := 0;
                    processed_date := epoch 0; token_count := 5 |};
     embedding := None; score := None |}.

Definition bad_chunk : Chunk :=
  {| id := md5 "doc.txt_1"; text := "";
     metadata := {| source := "doc.txt"; chunk_index := 1;
                    processed_date := epoch 1; token_count := 0 |};
     embedding := None; score := None |}.

(** An upload of 1000 tokens under the name doc.txt. *)
Definition upload : App.UploadedFile :=
  {| App.name := "doc.txt";
     App.getvalue := string_of_list_ascii (repeat "a"%char 1000);
     App.tmp_token := "ab12cd34";
     App.clock := epoch |}.

Definition uploaded_db : Database :=
  match App.process_uploads 3 ∅ [upload] empty_db with
  | Some (_, db) => db
  | None => empty_db
  end.

(** A directory with a file of an unknown type and an empty text file. *)
Definition fs : gmap string string :=
  <["/data/notes.xyz" := "some text"]> (<["/data/empty.txt" := ""]> ∅).

Definition notes_upload : App.UploadedFile :=
  {| App.name := "notes.xyz"; App.getvalue := "some text";
     App.tmp_token := "zz99yy88"; App.clock := epoch |}.


(** A generator that answers with a fixed text, and a stand-in for the
    formatting of a float: the integer part and four zeros. *)
#[export] Instance generator : Generator :=
  {| chat_completions_create := fun _ _ => Py.Returned "I do not know." |}.

#[export] Instance float_format : FloatFormat :=
  {| format_4f := fun q => Py.str (Qnum q / Z.pos (Qden q)) +:+ ".0000" |}.

(** A second chunk with the id of [good_chunk]. *)
Definition newer_chunk : Chunk :=
  {| id := md5 "doc.txt_0"; text := "HELLO";
     metadata := {| source := "doc.txt"; chunk_index := 0;
                    processed_date := epoch 1; token_count := 5 |};
     embedding := None; score := None |}.

(** A text file in a subdirectory, with an extension in capitals. *)
Definition fs_docs : gmap string string :=
  <["/data/sub/report.TXT" := "abcdefghij"]> ∅.

Definition report_chunks : list Chunk :=
  match DocumentProcessor.process_file 11 small epoch fs_docs "/data/sub/report.TXT" with
  | Some (Py.Returned chunks) => chunks
  | _ => []
  end.

(** The result of a retrieval on the table of the ten-token document. *)
Definition doc_results : list Expanded :=
  match Retriever.retrieve "abcd" 1 1 doc_db with
  | (Py.Returned res, _) => res
  | _ => []
  end.

Definition first_result : Expanded :=
  nth 0 doc_results
      {| primary := good_chunk; context := {| before := []; after := [] |} |}.

(** The row of the chunk at position 1 of the ten-token document. *)
Definition doc_row1 : Row :=
  default {| content := ""; row_metadata := metadata good_chunk; row_embedding := [] |}
          (documents doc_db !! md5 "doc.txt_1").

(** The row of the chunk at position 1 of the uploaded file. *)
Definition uploaded_row1 : Row :=
  default {| content := ""; row_metadata := metadata good_chunk; row_embedding := [] |}
          (documents uploaded_db !! md5 "tmpab12cd34_doc.txt_1").

(** An upload whose name holds a slash. *)
Definition nested_upload : App.UploadedFile :=
  {| App.name := "a/b.txt"; App.getvalue := "some text";
     App.tmp_token := "qq11rr22"; App.clock := epoch |}.







End Demo.


(** * Properties *)

(** ** Python primitives *)

Lemma range_nil lo : Py.range lo lo = [].
Proof. unfold Py.range. by rewrite Z.sub_diag. Qed.

Lemma range_cons lo hi : lo < hi -> Py.range lo hi = lo :: Py.range (lo + 1) hi.
Proof.
  intros Hlt. unfold Py.range.
  replace (Z.to_nat (hi - lo)) with (S (Z.to_nat (hi - (lo + 1)))) by lia.
  cbn [seq map]. f_equal; [lia |].
  rewrite <- seq_shift, map_map. apply map_ext. intros k. lia.
Qed.

Lemma range_snoc lo hi : lo <= hi -> Py.range lo (hi + 1) = Py.range lo hi ++ [hi].
Proof.
  intros Hle. unfold Py.range.
  replace (Z.to_nat (hi + 1 - lo)) with (Z.to_nat (hi - lo) + 1)%nat by lia.
  rewrite seq_app, map_app. cbn. do 2 f_equal. lia.
Qed.

Lemma elem_of_range lo hi k : k ∈ Py.range lo hi <-> lo <= k < hi.
Proof.
  unfold Py.range. rewrite list_elem_of_In, in_map_iff. split.
  - intros (n & <- & Hn%in_seq). lia.
  - intros Hk. exists (Z.to_nat (k - lo)). split; [lia |]. apply in_seq. lia.
Qed.

Lemma length_range lo hi : Z.of_nat (length (Py.range lo hi)) = Z.max 0 (hi - lo).
Proof. unfold Py.range. rewrite length_map, length_seq. lia. Qed.

Lemma lookup_range lo hi k :
  lo <= k < hi -> Py.range lo hi !! Z.to_nat (k - lo) = Some k.
Proof.
  intros Hk. unfold Py.range. rewrite list_lookup_fmap.
  rewrite lookup_seq_lt by lia. cbn. f_equal. lia.
Qed.

Lemma length_slice {A} (l : list A) (s e : Z) :
  0 <= s <= e -> e <= Z.of_nat (length l) ->
  Z.of_nat (length (Py.slice l s e)) = e - s.
Proof.
  intros Hs He. unfold Py.slice, Py.clamp.
  destruct (Z.ltb_spec s 0); [lia |]. destruct (Z.ltb_spec e 0); [lia |].
  rewrite length_take, length_drop. lia.
Qed.

(** ** The chunker *)

Section ChunkerProperties.
Context `{Encoding} `{Hash}.
Variables (self : DocumentProcessor.t) (clock : Z -> string).
Variables (tokens : list token) (filename : string).

Let W := DocumentProcessor.chunk_size self.
Let O := DocumentProcessor.chunk_overlap self.
Let N := Z.of_nat (length tokens).
Let loop fuel := DocumentProcessor.chunk_loop fuel self clock tokens filename.

Lemma chunk_loop_S fuel start ci acc :
  loop (S fuel) start ci acc
  = if start <? N then
      if Z.min (start + W) N =? N
      then Some (acc ++ [DocumentProcessor.window_chunk self clock tokens filename start ci])
      else loop fuel (start + (W - O)) (ci + 1)
             (acc ++ [DocumentProcessor.window_chunk self clock tokens filename start ci])
    else Some acc.
Proof.
  unfold loop. cbn [DocumentProcessor.chunk_loop]. fold N.
  destruct (start <? N); [| done].
  unfold DocumentProcessor.loop_body. fold N W O.
  by destruct (Z.min (start + W) N =? N).
Qed.

(** More fuel does not change a result. *)
Lemma chunk_loop_mono fuel fuel' start ci acc r :
  (fuel <= fuel')%nat -> loop fuel start ci acc = Some r -> loop fuel' start ci acc = Some r.
Proof.
  revert fuel' start ci acc. induction fuel as [| fuel IH]; intros fuel' start ci acc Hle.
  - discriminate.
  - destruct fuel' as [| fuel']; [lia |].
    rewrite !chunk_loop_S.
    destruct (start <? N); [| done].
    destruct (Z.min (start + W) N =? N); [done |].
    apply IH. lia.
Qed.

(** With a positive step the loop returns within [N - start] iterations. *)
Lemma chunk_loop_terminates fuel start ci acc :
  0 < W - O -> Z.max 0 (N - start) < Z.of_nat fuel ->
  exists r, loop fuel start ci acc = Some r.
Proof.
  intros Hstep. revert start ci acc.
  induction fuel as [| fuel IH]; intros start ci acc Hfuel; [lia |].
  rewrite chunk_loop_S.
  destruct (Z.ltb_spec start N); [| by eexists].
  destruct (Z.min (start + W) N =? N); [by eexists |].
  apply IH. lia.
Qed.

(** While the windows stay short of the end, the loop just steps. *)
Lemma chunk_loop_unroll (n : nat) fuel k acc :
  (forall j, k <= j < k + Z.of_nat n -> j * (W - O) < N /\ j * (W - O) + W < N) ->
  loop (n + fuel) (k * (W - O)) k acc
  = loop fuel ((k + Z.of_nat n) * (W - O)) (k + Z.of_nat n)
      (acc ++ map (nth_chunk self clock tokens filename) (Py.range k (k + Z.of_nat n))).
Proof.
  revert k acc. induction n as [| n IH]; intros k acc Hshort.
  - cbn [Nat.add Z.of_nat]. rewrite Z.add_0_r, range_nil. cbn. by rewrite app_nil_r.
  - cbn [Nat.add]. rewrite chunk_loop_S.
    destruct (Hshort k) as [Hs He]; [lia |].
    destruct (Z.ltb_spec (k * (W - O)) N); [| lia].
    destruct (Z.eqb_spec (Z.min (k * (W - O) + W) N) N); [lia |].
    replace (k * (W - O) + (W - O)) with ((k + 1) * (W - O)) by lia.
    rewrite IH by (intros j Hj; apply Hshort; lia).
    rewrite (range_cons k) by lia. cbn [map].
    rewrite <- app_assoc. cbn [app].
    replace (k + 1 + Z.of_nat n) with (k + Z.of_nat (S n)) by lia.
    reflexivity.
Qed.

(** A non-positive step never gets past a window that is too short. *)
Lemma chunk_loop_stuck fuel start ci acc :
  W - O <= 0 -> start <= 0 -> 0 < N -> W < N -> loop fuel start ci acc = None.
Proof.
  intros Hstep. revert start ci acc.
  induction fuel as [| fuel IH]; intros start ci acc Hstart HN HW; [done |].
  rewrite chunk_loop_S.
  destruct (Z.ltb_spec start N); [| lia].
  destruct (Z.eqb_spec (Z.min (start + W) N) N); [lia |].
  apply IH; lia.
Qed.

End ChunkerProperties.

Lemma ceil_div_spec a b : 0 < b -> (ceil_div a b - 1) * b < a <= ceil_div a b * b.
Proof.
  intros Hb. unfold ceil_div.
  pose proof (Z.div_mod (a + b - 1) b ltac:(lia)).
  pose proof (Z.mod_pos_bound (a + b - 1) b Hb). nia.
Qed.

(** The last window is the first one that reaches the end. *)
Lemma expected_count_facts N W O :
  0 <= O < W -> 0 < N ->
  let m := expected_count N W O - 1 in
  0 <= m /\ m * (W - O) < N <= m * (W - O) + W /\
  (forall j, 0 <= j < m -> j * (W - O) < N /\ j * (W - O) + W < N).
Proof.
  intros HO HN. unfold expected_count.
  destruct (Z.eqb_spec N 0); [lia |].
  destruct (Z.ltb_spec W N).
  - pose proof (ceil_div_spec (N - O) (W - O) ltac:(lia)) as Hq.
    set (q := ceil_div (N - O) (W - O)) in *. cbn zeta.
    repeat split; try nia.
  - cbn zeta. repeat split; lia.
Qed.

Section ChunkerClosedForm.
Context `{Encoding} `{Hash}.
Variables (self : DocumentProcessor.t) (clock : Z -> string).
Variables (tokens : list token) (filename : string).

Let W := DocumentProcessor.chunk_size self.
Let O := DocumentProcessor.chunk_overlap self.
Let N := Z.of_nat (length tokens).

Lemma chunk_loop_closed_form fuel :
  0 <= O < W -> expected_count N W O < Z.of_nat fuel ->
  DocumentProcessor.chunk_loop fuel self clock tokens filename 0 0 []
  = Some (map (nth_chunk self clock tokens filename) (Py.range 0 (expected_count N W O))).
Proof.
  intros HO Hfuel.
  destruct (Z.eq_dec N 0) as [HN0 | HN0].
  - assert (expected_count N W O = 0) as Hc
      by (unfold expected_count; destruct (Z.eqb_spec N 0); [done | lia]).
    rewrite Hc in *. destruct fuel as [| fuel]; [lia |].
    rewrite chunk_loop_S. fold N.
    destruct (Z.ltb_spec 0 N); [lia | reflexivity].
  - assert (0 < N) as HN by lia.
    destruct (expected_count_facts N W O HO HN) as (Hm & [Hlast Hreach] & Hshort).
    set (m := expected_count N W O - 1) in *.
    apply (chunk_loop_mono self clock tokens filename (Z.to_nat m + 1)); [lia |].
    pose proof (chunk_loop_unroll self clock tokens filename (Z.to_nat m) 1 0 []) as Hun.
    fold W O N in Hun. rewrite Z.mul_0_l, Z.add_0_l, Z2Nat.id in Hun by lia.
    rewrite Hun by (intros j Hj; apply Hshort; lia). clear Hun.
    rewrite chunk_loop_S. fold W O N.
    destruct (Z.ltb_spec (m * (W - O)) N); [| lia].
    destruct (Z.eqb_spec (Z.min (m * (W - O) + W) N) N); [| lia].
    replace (expected_count N W O) with (m + 1) by lia.
    rewrite range_snoc, map_app by lia. reflexivity.
Qed.

End ChunkerClosedForm.

(** C10: with [chunk_overlap < chunk_size] and [chunk_size >= 1] the chunking
    loop terminates: a pass through the body either breaks, exactly when the
    window's end is the token count, or moves [start] forward by
    [chunk_size - chunk_overlap > 0]; the loop returns within
    [len(tokens) + 1] evaluations of its condition. *)
Theorem C10_chunking_terminates `{Encoding} `{Hash}
    (self : DocumentProcessor.t) (clock : Z -> string) (content filename : string) :
  DocumentProcessor.chunk_overlap self < DocumentProcessor.chunk_size self ->
  1 <= DocumentProcessor.chunk_size self ->
  let W := DocumentProcessor.chunk_size self in
  let O := DocumentProcessor.chunk_overlap self in
  let N := Z.of_nat (length (encode content)) in
  (forall start ci chunks,
     match DocumentProcessor.loop_body self clock (encode content) filename start ci chunks with
     | DocumentProcessor.Continue start' ci' _ =>
         start' = start + (W - O) /\ start < start' /\ ci' = ci + 1 /\
         Z.min (start + W) N <> N
     | DocumentProcessor.Break _ => Z.min (start + W) N = N
     end) /\
  exists chunks, forall fuel,
    (length (encode content) < fuel)%nat ->
    DocumentProcessor._chunk_content fuel self clock content filename = Some chunks.
Proof.
  intros HO HW W O N. split.
  - intros start ci chunks. unfold DocumentProcessor.loop_body. fold W O N.
    destruct (Z.eqb_spec (Z.min (start + W) N) N); [done |].
    repeat split; [lia | done].
  - destruct (chunk_loop_terminates self clock (encode content) filename
                (S (length (encode content))) 0 0 []) as [r Hr]; [lia | lia |].
    exists r. intros fuel Hfuel. unfold DocumentProcessor._chunk_content.
    eapply chunk_loop_mono; [| exact Hr]. lia.
Qed.

(** C2 (as the code has it): no configuration is refused. With [O < W] the
    chunker returns. With [O >= W] it raises nothing: it returns the empty
    list for no tokens, one chunk holding all the tokens when there are at
    most [W] of them, and never leaves the loop when there are more. *)
Theorem C2_no_configuration_check `{Encoding} `{Hash}
    (chunk_size chunk_overlap : Z) (clock : Z -> string) (content filename : string) :
  let self := DocumentProcessor.__init__ chunk_size chunk_overlap in
  let N := Z.of_nat (length (encode content)) in
  let run fuel := DocumentProcessor._chunk_content fuel self clock content filename in
  (chunk_overlap < chunk_size ->
     exists chunks, forall fuel, (length (encode content) < fuel)%nat -> run fuel = Some chunks) /\
  (chunk_size <= chunk_overlap -> N = 0 -> forall fuel, run (S fuel) = Some []) /\
  (chunk_size <= chunk_overlap -> 0 < N <= chunk_size ->
     forall fuel, run (S fuel) = Some [nth_chunk self clock (encode content) filename 0]) /\
  (chunk_size <= chunk_overlap -> 0 < N -> chunk_size < N -> forall fuel, run fuel = None).
Proof.
  intros self N run. repeat split.
  - intros HO.
    destruct (chunk_loop_terminates self clock (encode content) filename
                (S (length (encode content))) 0 0 []) as [r Hr]; [cbn; lia | lia |].
    exists r. intros fuel Hfuel. unfold run, DocumentProcessor._chunk_content.
    eapply chunk_loop_mono; [| exact Hr]. lia.
  - intros _ HN fuel. unfold run, DocumentProcessor._chunk_content.
    rewrite chunk_loop_S. fold N.
    destruct (Z.ltb_spec 0 N); [lia | reflexivity].
  - intros _ HN fuel. unfold run, DocumentProcessor._chunk_content.
    rewrite chunk_loop_S. fold N. cbn [DocumentProcessor.chunk_size self DocumentProcessor.__init__].
    destruct (Z.ltb_spec 0 N); [| lia].
    destruct (Z.eqb_spec (Z.min (0 + chunk_size) N) N); [| lia].
    reflexivity.
  - intros HO HN HW fuel. unfold run, DocumentProcessor._chunk_content.
    apply chunk_loop_stuck; cbn; lia.
Qed.

(** C4 (amended): for [0 <= O < W] and [N] tokens the chunker returns
    [ceil((N-O)/(W-O))] chunks when [N > W], one chunk when [0 < N <= W] and
    none when [N = 0]; chunk [k] has [chunk_index = k] and holds the tokens
    of the window [[k(W-O), min(k(W-O)+W, N))]; the windows cover [[0, N)];
    consecutive windows share exactly [O] tokens. *)
Theorem C4_chunk_windows `{Encoding} `{Hash}
    (self : DocumentProcessor.t) (clock : Z -> string) (content filename : string) :
  let W := DocumentProcessor.chunk_size self in
  let O := DocumentProcessor.chunk_overlap self in
  let tokens := encode content in
  let N := Z.of_nat (length tokens) in
  let count := expected_count N W O in
  0 <= O < W ->
  exists chunks,
    (forall fuel, count < Z.of_nat fuel ->
       DocumentProcessor._chunk_content fuel self clock content filename = Some chunks) /\
    Z.of_nat (length chunks) = count /\
    (forall k, 0 <= k < count ->
       exists c, chunks !! Z.to_nat k = Some c /\
         chunk_index (metadata c) = k /\
         source (metadata c) = filename /\
         text c = decode (Py.slice tokens (window_start self k) (window_end self N k)) /\
         token_count (metadata c) = window_end self N k - window_start self k /\
         0 <= window_start self k < window_end self N k /\
         window_end self N k <= N) /\
    (forall t, 0 <= t < N ->
       exists k, 0 <= k < count /\ window_start self k <= t < window_end self N k) /\
    (forall k, 0 <= k -> k + 1 < count ->
       window_end self N k - window_start self (k + 1) = O /\
       window_end self N k <= window_end self N (k + 1)).
Proof.
  intros W O tokens N count HO.
  exists (map (nth_chunk self clock tokens filename) (Py.range 0 count)).
  assert (0 <= count) as Hcount0.
  { unfold count, expected_count. destruct (Z.eqb_spec N 0); [lia |].
    destruct (Z.ltb_spec W N); [| lia].
    pose proof (ceil_div_spec (N - O) (W - O) ltac:(lia)). nia. }
  assert (0 < count -> 0 < N) as HposN.
  { unfold count, expected_count. destruct (Z.eqb_spec N 0); lia. }
  assert (forall k, 0 <= k < count ->
            0 <= window_start self k < window_end self N k /\ window_end self N k <= N /\
            (k + 1 < count -> window_end self N k = window_start self k + W /\
                              window_start self k + W < N)) as Hwin.
  { intros k Hk. assert (0 < N) as HN by lia.
    destruct (expected_count_facts N W O HO HN) as (Hm & [Hlast Hreach] & Hshort).
    fold count in Hm, Hlast, Hreach, Hshort.
    unfold window_end, window_start. fold W O.
    destruct (Z.eq_dec k (count - 1)) as [-> | Hne].
    - repeat split; try lia. nia.
    - destruct (Hshort k) as [Hs He]; [lia |]. repeat split; try lia. nia. }
  split; [| split; [| split; [| split]]].
  - intros fuel Hfuel. unfold DocumentProcessor._chunk_content.
    by apply chunk_loop_closed_form.
  - rewrite length_map, length_range. lia.
  - intros k Hk. exists (nth_chunk self clock tokens filename k).
    destruct (Hwin k Hk) as (Hs & He & _).
    split; [| repeat split; try lia].
    + rewrite list_lookup_fmap. replace (Z.to_nat k) with (Z.to_nat (k - 0)) by lia.
      by rewrite lookup_range.
    + unfold nth_chunk, DocumentProcessor.window_chunk, window_end, window_start. cbn.
      fold tokens W O N. rewrite length_slice; [lia | |];
        unfold window_end, window_start in Hs, He; fold W O in Hs, He; lia.
  - intros t Ht. assert (0 < N) as HN by lia.
    destruct (expected_count_facts N W O HO HN) as (Hm & [Hlast Hreach] & Hshort).
    fold count in Hm, Hlast, Hreach, Hshort.
    pose proof (Z.div_mod t (W - O) ltac:(lia)) as Hdm.
    pose proof (Z.mod_pos_bound t (W - O) ltac:(lia)) as Hmod.
    assert (0 <= t / (W - O)) as Hq by (apply Z.div_pos; lia).
    exists (Z.min (t / (W - O)) (count - 1)).
    unfold window_end, window_start. fold W O.
    destruct (Z.le_gt_cases (t / (W - O)) (count - 1)).
    + rewrite Z.min_l by lia. repeat split; try lia; nia.
    + rewrite Z.min_r by lia. repeat split; try lia; nia.
  - intros k Hk0 Hk.
    destruct (Hwin k ltac:(lia)) as (Hs & He & Hfull).
    destruct (Hfull Hk) as [Hend Hlt].
    destruct (Hwin (k + 1) ltac:(lia)) as (Hs' & He' & _).
    assert (window_start self (k + 1) = window_start self k + (W - O)) as Hnext
      by (unfold window_start; fold W O; lia).
    assert (window_end self N k <= window_end self N (k + 1)) as Hmono.
    { rewrite Hend. unfold window_end. rewrite Hnext. fold W. lia. }
    lia.
Qed.

(** ** Sorting *)

Section SortBy.
Context {A : Type} (lt : A -> A -> bool).

Lemma insert_by_perm x l : Permutation (Py.insert_by lt x l) (x :: l).
Proof.
  induction l as [| y l IH]; cbn; [done |].
  destruct (lt y x); [| done]. rewrite IH. apply perm_swap.
Qed.

Lemma sort_by_perm l : Permutation (Py.sort_by lt l) l.
Proof.
  induction l as [| x l IH]; cbn; [done |].
  fold (Py.sort_by lt l). by rewrite insert_by_perm, IH.
Qed.

Lemma length_sort_by l : length (Py.sort_by lt l) = length l.
Proof. apply Permutation_length, sort_by_perm. Qed.

Lemma elem_of_sort_by x l : x ∈ Py.sort_by lt l <-> x ∈ l.
Proof. by rewrite sort_by_perm. Qed.

Hypothesis lt_asym : forall x y, lt x y = true -> lt y x = false.
Hypothesis not_after_trans : forall x y z, not_after lt x y -> not_after lt y z -> not_after lt x z.

Lemma insert_by_sorted x l :
  StronglySorted (not_after lt) l -> StronglySorted (not_after lt) (Py.insert_by lt x l).
Proof.
  induction 1 as [| y l Hsorted IH Hall]; cbn; [repeat constructor |].
  destruct (lt y x) eqn:Hyx.
  - constructor; [exact IH |].
    rewrite insert_by_perm. constructor; [by apply lt_asym | exact Hall].
  - constructor; [by constructor |].
    constructor; [exact Hyx |].
    eapply Forall_impl; [exact Hall |]. intros z Hyz.
    eapply not_after_trans; [exact Hyx | exact Hyz].
Qed.

(** The sort is stable: the elements of a class whose members do not
    compare as smaller than one another come out in the order they had. *)
Lemma filter_insert_by (P : A -> Prop) `{!forall x, Decision (P x)} x l :
  (forall a b, P a -> P b -> lt a b = false) ->
  filter P (Py.insert_by lt x l) = filter P (x :: l).
Proof.
  intros Hclass. induction l as [| y l IH]; cbn; [done |].
  destruct (lt y x) eqn:Hyx; [| done].
  rewrite filter_cons, IH, !filter_cons.
  destruct (decide (P y)) as [Hy |]; [| done].
  destruct (decide (P x)) as [Hx |]; [| done].
  by rewrite (Hclass y x Hy Hx) in Hyx.
Qed.

Lemma sort_by_stable (P : A -> Prop) `{!forall x, Decision (P x)} l :
  (forall a b, P a -> P b -> lt a b = false) ->
  filter P (Py.sort_by lt l) = filter P l.
Proof.
  intros Hclass. induction l as [| x l IH]; cbn; [done |].
  fold (Py.sort_by lt l). rewrite filter_insert_by by done.
  by rewrite !filter_cons, IH.
Qed.

Lemma sort_by_sorted l : StronglySorted (not_after lt) (Py.sort_by lt l).
Proof.
  induction l as [| x l IH]; cbn; [constructor |]. by apply insert_by_sorted.
Qed.

End SortBy.

Lemma StronglySorted_take {A} (R : relation A) n l :
  StronglySorted R l -> StronglySorted R (take n l).
Proof.
  intros Hs. revert n. induction Hs as [| x l Hs IH Hall]; intros [| n]; cbn;
    try constructor; [apply IH | by apply Forall_take].
Qed.


(** [list.sort(key=...)] keeps the order of the elements of one key. *)
Lemma sort_by_key_stable {A} (key : A -> Z) (k : Z) l :
  filter (fun x => key x = k) (Py.sort_by_key key l) = filter (fun x => key x = k) l.
Proof.
  unfold Py.sort_by_key. apply sort_by_stable.
  intros a b -> Hb. apply Z.ltb_ge. lia.
Qed.

(** ** The store *)

Section StoreProperties.
Context `{Embedder} `{Pgvector}.

Lemma execute_upsert_ok chunk emb pending :
  length emb = VectorStore.EMBEDDING_DIM ->
  VectorStore.execute_upsert chunk emb pending
  = Py.Returned (<[id chunk := {| content := text chunk;
                                  row_metadata := metadata chunk;
                                  row_embedding := emb |}]> pending).
Proof. intros Hd. unfold VectorStore.execute_upsert. by rewrite decide_True. Qed.

(** The loop gets through chunks that are fine, and has their rows in the
    tables of the transaction. *)
Lemma add_loop_app_ok pre rest pending :
  Forall chunk_ok pre ->
  exists pending',
    VectorStore.add_loop (pre ++ rest) pending = VectorStore.add_loop rest pending' /\
    (forall c, c ∈ pre -> is_Some (pending' !! id c)) /\
    (forall i, is_Some (pending !! i) -> is_Some (pending' !! i)).
Proof.
  intros Hok. revert pending. induction Hok as [| c pre (emb & Hemb & Hdim) _ IH]; intros pending.
  - exists pending. repeat split; [| done]. intros c Hc. by apply elem_of_nil in Hc.
  - cbn [app VectorStore.add_loop]. rewrite Hemb. cbn.
    rewrite (execute_upsert_ok _ _ _ Hdim). cbn.
    destruct (IH (<[id c := {| content := text c; row_metadata := metadata c;
                               row_embedding := emb |}]> pending))
      as (pending' & Heq & Hin & Hkeep).
    exists pending'. split; [exact Heq |]. split.
    + intros c' [-> | Hc']%elem_of_cons; [| by apply Hin].
      apply Hkeep. rewrite lookup_insert_eq. by eexists.
    + intros i Hi. apply Hkeep. rewrite lookup_insert.
      destruct (decide (id c = i)); [by eexists | exact Hi].
Qed.

Lemma add_loop_fails c rest pending e :
  chunk_fails c e -> VectorStore.add_loop (c :: rest) pending = Py.Raised e.
Proof.
  intros [Hemb | (emb & Hemb & Hdim & ->)]; cbn [VectorStore.add_loop]; rewrite Hemb; cbn.
  - done.
  - unfold VectorStore.execute_upsert. by rewrite decide_False.
Qed.

(** C1 (as the code has it): the whole call is one transaction. When the
    embedding or the write of chunk [i] fails, after chunks [0..i-1] were
    written inside the transaction, the error is raised to the caller and
    the transaction is rolled back: the table is as it was before the call,
    so none of the rows written in the call is kept. *)
Theorem C1_failed_upsert_rolls_back (pre : list Chunk) (c : Chunk) (post : list Chunk)
    (db : Database) (e : Py.exn) :
  Forall chunk_ok pre -> chunk_fails c e ->
  (exists pending,
     VectorStore.add_loop pre (documents db) = Py.Returned pending /\
     forall c', c' ∈ pre -> is_Some (pending !! id c')) /\
  VectorStore.add_documents (pre ++ c :: post) db
  = (Py.Raised e, {| documents := documents db; connections := S (connections db) |}).
Proof.
  intros Hpre Hfail. split.
  - destruct (add_loop_app_ok pre [] (documents db) Hpre) as (pending & Heq & Hin & _).
    exists pending. rewrite app_nil_r in Heq. by split.
  - unfold VectorStore.add_documents. cbn.
    destruct (add_loop_app_ok pre (c :: post) (documents db) Hpre) as (pending & -> & _).
    by rewrite (add_loop_fails _ _ _ _ Hfail).
Qed.

End StoreProperties.

Section StoreQueries.
Context `{Embedder} `{Pgvector}.

Lemma filter_none {A} (P : A -> Prop) `{forall x, Decision (P x)} (l : list A) :
  (forall x, x ∈ l -> ~ P x) -> filter P l = [].
Proof.
  induction l as [| x l IH]; intros Hnone; [done |].
  rewrite filter_cons, decide_False by (apply Hnone; left).
  apply IH. intros y Hy. apply Hnone. by right.
Qed.

(** What [get_chunks_by_ids] returns, whether or not it opens a connection. *)
Lemma get_chunks_by_ids_result (chunk_ids : list string) (db : Database) :
  VectorStore.get_chunks_by_ids chunk_ids db
  = (Py.Returned
       (map VectorStore.payload
            (fetch_order chunk_ids
               (filter (fun ir => ir.1 ∈ chunk_ids) (map_to_list (documents db))))),
     {| documents := documents db;
        connections := match chunk_ids with
                       | [] => connections db
                       | _ => S (connections db)
                       end |}).
Proof.
  destruct chunk_ids as [| i ids]; [| done].
  cbn. rewrite filter_none.
  - pose proof (fetch_order_perm [] []) as Hnil.
    apply Permutation_nil_r in Hnil. rewrite Hnil. by destruct db.
  - intros ir _ Hin. by apply elem_of_nil in Hin.
Qed.

Lemma elem_of_fetch_order (ids : list string) (rows : list (string * Row)) ir :
  ir ∈ fetch_order ids rows <-> ir ∈ rows.
Proof. by rewrite fetch_order_perm. Qed.

Lemma elem_of_fetched (chunk_ids : list string) (docs : gmap string Row) (c : Chunk) :
  c ∈ map VectorStore.payload
        (fetch_order chunk_ids (filter (fun ir => ir.1 ∈ chunk_ids) (map_to_list docs)))
  <-> exists i row, i ∈ chunk_ids /\ docs !! i = Some row /\ c = VectorStore.payload (i, row).
Proof.
  rewrite list_elem_of_fmap. split.
  - intros ([i row] & -> & Hin). apply elem_of_fetch_order in Hin.
    apply list_elem_of_filter in Hin as [Hin Hrow%elem_of_map_to_list].
    by exists i, row.
  - intros (i & row & Hin & Hrow & ->). exists (i, row). split; [done |].
    apply elem_of_fetch_order.
    apply list_elem_of_filter. split; [done |]. by apply elem_of_map_to_list.
Qed.

(** The rows come back once each, whatever their order. *)
Lemma NoDup_fetched_ids (chunk_ids : list string) (docs : gmap string Row) :
  NoDup (map fst (fetch_order chunk_ids
                    (filter (fun ir => ir.1 ∈ chunk_ids) (map_to_list docs)))).
Proof.
  assert (map fst (fetch_order chunk_ids
                     (filter (fun ir : string * Row => ir.1 ∈ chunk_ids) (map_to_list docs)))
          ≡ₚ map fst (filter (fun ir : string * Row => ir.1 ∈ chunk_ids) (map_to_list docs)))
    as -> by apply (fmap_Permutation fst), fetch_order_perm.
  assert (map fst (filter (fun ir : string * Row => ir.1 ∈ chunk_ids) (map_to_list docs))
          `sublist_of` (map_to_list docs).*1) as Hsub
    by apply (fmap_sublist fst), sublist_filter.
  exact (sublist_NoDup _ _ (NoDup_fst_map_to_list docs) Hsub).
Qed.

(** C7: [get_chunks_by_ids] returns, once each, the stored chunks whose id
    is among the given ids, without their embeddings; ids that are not
    stored are just absent and nothing is raised; the table is not changed;
    for the empty list it returns the empty list and opens no connection. *)
Theorem C7_get_chunks_by_ids (chunk_ids : list string) (db : Database) :
  exists res db',
    VectorStore.get_chunks_by_ids chunk_ids db = (Py.Returned res, db') /\
    documents db' = documents db /\
    (forall c, c ∈ res <->
       exists i row, i ∈ chunk_ids /\ documents db !! i = Some row /\
         c = {| id := i; text := content row; metadata := row_metadata row;
                embedding := None; score := None |}) /\
    NoDup (map id res) /\
    Forall (fun c => embedding c = None) res /\
    VectorStore.get_chunks_by_ids [] db = (Py.Returned [], db).
Proof.
  eexists _, _. split; [apply get_chunks_by_ids_result |].
  split; [done |]. split; [apply elem_of_fetched |]. split; [| split; [| done]].
  - rewrite map_map. cbn. apply NoDup_fetched_ids.
  - apply Forall_forall. intros c (i & row & _ & _ & ->)%elem_of_fetched. done.
Qed.

Lemma delete_document_result filename db :
  VectorStore.delete_document filename db
  = (Py.Returned tt,
     {| documents := filter (fun ir => source (row_metadata ir.2) ≠ filename) (documents db);
        connections := S (connections db) |}).
Proof. done. Qed.

Lemma elem_of_get_all_documents (docs : gmap string Row) (s : string) :
  s ∈ remove_dups (map (fun ir : string * Row => source (row_metadata ir.2))
                       (map_to_list docs))
  <-> exists i row, docs !! i = Some row /\ source (row_metadata row) = s.
Proof.
  rewrite elem_of_remove_dups, list_elem_of_fmap. split.
  - intros ([i row] & -> & Hrow%elem_of_map_to_list). by exists i, row.
  - intros (i & row & Hrow & <-). exists (i, row). split; [done |].
    by apply elem_of_map_to_list.
Qed.

(** C8: [delete_document] removes the rows whose [metadata.source] is the
    given name and no other row, changes nothing when no row has that
    source, and [get_all_documents] afterwards lists, without repetition,
    the other sources and not that name. *)
Theorem C8_delete_document (filename : string) (db : Database) :
  exists db',
    VectorStore.delete_document filename db = (Py.Returned tt, db') /\
    (forall i row, documents db' !! i = Some row <->
       documents db !! i = Some row /\ source (row_metadata row) ≠ filename) /\
    ((forall i row, documents db !! i = Some row -> source (row_metadata row) ≠ filename) ->
     documents db' = documents db) /\
    exists sources db'',
      VectorStore.get_all_documents db' = (Py.Returned sources, db'') /\
      documents db'' = documents db' /\
      (filename ∉ sources) /\ NoDup sources /\
      (forall s, s ∈ sources <->
         s ≠ filename /\
         exists i row, documents db !! i = Some row /\ source (row_metadata row) = s).
Proof.
  eexists. split; [apply delete_document_result |]. cbn [documents].
  assert (forall i row,
            filter (fun ir : string * Row => source (row_metadata ir.2) ≠ filename)
                   (documents db) !! i = Some row <->
            documents db !! i = Some row /\ source (row_metadata row) ≠ filename) as Hlookup.
  { intros i row. by rewrite map_lookup_filter_Some. }
  split; [exact Hlookup |]. split.
  - intros Hnone. apply map_filter_id. intros i row Hrow. cbn. by eapply Hnone.
  - eexists _, _. split; [reflexivity |]. cbn [documents]. split; [done |].
    assert (forall s,
              s ∈ remove_dups (map (fun ir : string * Row => source (row_metadata ir.2))
                (map_to_list (filter (fun ir : string * Row => source (row_metadata ir.2) ≠ filename)
                                     (documents db))))
              <-> s ≠ filename /\
                  exists i row, documents db !! i = Some row /\ source (row_metadata row) = s)
      as Hsources.
    { intros s.
      rewrite elem_of_get_all_documents. split.
      - intros (i & row & [Hrow Hne]%Hlookup & <-). split; [done |]. by exists i, row.
      - intros (Hne & i & row & Hrow & <-). exists i, row. split; [| done].
        by apply Hlookup. }
    split; [| split; [apply NoDup_remove_dups | exact Hsources]].
    intros [Hne _]%Hsources. by apply Hne.
Qed.

End StoreQueries.

Section QueryProperties.
Context `{Embedder} `{Pgvector}.

Lemma closer_asym q x y :
  VectorStore.closer q x y = true -> VectorStore.closer q y x = false.
Proof.
  unfold VectorStore.closer. intros Hxy%negb_true_iff. apply negb_false_iff.
  apply Qle_bool_iff. apply Qnot_lt_le. intros Hlt.
  apply Qlt_le_weak, Qle_bool_iff in Hlt. congruence.
Qed.

Lemma not_after_closer q x y :
  not_after (VectorStore.closer q) x y
  <-> (cosine_distance (row_embedding x.2) q <= cosine_distance (row_embedding y.2) q)%Q.
Proof.
  unfold not_after, VectorStore.closer. by rewrite negb_false_iff, Qle_bool_iff.
Qed.

Lemma rows_by_distance_sorted q (rows : list (string * Row)) :
  StronglySorted (not_after (VectorStore.closer q)) (Py.sort_by (VectorStore.closer q) rows).
Proof.
  apply sort_by_sorted; [apply closer_asym |].
  intros x y z. rewrite !not_after_closer. apply Qle_trans.
Qed.

(** C9: when the query embedding is obtained and the limit is not negative,
    [query] returns [min(k, number of rows)] chunks, so at most [k], in
    descending order of score; each is a stored row and its score is 1 minus
    the distance between the stored embedding and the query embedding; on an
    empty table the result is the empty list. *)
Theorem C9_query_ranking (query_text : string) (limit : Z) (db : Database)
    (query_embedding : list Q) :
  VectorStore.get_embedding query_text = Py.Returned query_embedding ->
  0 <= limit ->
  exists res db',
    VectorStore.query query_text limit db = (Py.Returned res, db') /\
    documents db' = documents db /\
    Z.of_nat (length res) <= limit /\
    Z.of_nat (length res) = Z.min limit (Z.of_nat (size (documents db))) /\
    StronglySorted (fun c1 c2 => (score_of c2 <= score_of c1)%Q) res /\
    Forall (fun c =>
              exists row, documents db !! id c = Some row /\
                text c = content row /\ metadata c = row_metadata row /\
                embedding c = None /\
                score c = Some (1 - cosine_distance (row_embedding row) query_embedding)%Q)
           res /\
    (documents db = ∅ -> res = []).
Proof.
  intros Hemb Hlimit. unfold VectorStore.query. rewrite Hemb. cbn.
  destruct (Z.ltb_spec limit 0); [lia |].
  eexists _, _. split; [reflexivity |]. cbn [documents].
  set (rows := take (Z.to_nat limit)
                 (Py.sort_by (VectorStore.closer query_embedding)
                    (map_to_list (documents db)))).
  assert (length rows = Nat.min (Z.to_nat limit) (size (documents db))) as Hlen.
  { unfold rows. by rewrite length_take, length_sort_by, length_map_to_list. }
  split; [done |]. rewrite length_map, Hlen.
  split; [lia |]. split; [lia |]. split; [| split].
  - apply (StronglySorted_fmap _ (not_after (VectorStore.closer query_embedding))).
    + intros x y Hxy%not_after_closer. unfold score_of. cbn. lra.
    + apply StronglySorted_take, rows_by_distance_sorted.
  - apply Forall_forall. intros c ([i row] & -> & Hin)%list_elem_of_fmap.
    apply subseteq_take, elem_of_sort_by, elem_of_map_to_list in Hin.
    exists row. by cbn.
  - intros Hempty. unfold rows. rewrite Hempty, map_to_list_empty. cbn.
    by rewrite take_nil.
Qed.

End QueryProperties.

(** ** Identity of chunks *)

Lemma list_ascii_of_append s t :
  list_ascii_of_string (s +:+ t) = list_ascii_of_string s ++ list_ascii_of_string t.
Proof. induction s as [| a s IH]; simpl; [done | by f_equal]. Qed.

Lemma append_inv_tail s1 s2 t : s1 +:+ t = s2 +:+ t -> s1 = s2.
Proof.
  intros Heq. apply (f_equal list_ascii_of_string) in Heq.
  rewrite !list_ascii_of_append in Heq. apply app_inv_tail in Heq.
  apply (f_equal string_of_list_ascii) in Heq.
  by rewrite !string_of_list_ascii_of_string in Heq.
Qed.

Lemma from_last_append c s t r :
  Py.from_last c t = Some r -> Py.from_last c (s +:+ t) = Some r.
Proof. intros Ht. induction s as [| a s IH]; simpl; [done | by rewrite IH]. Qed.

Lemma uint_no_underscore d : Py.from_last "_" (NilEmpty.string_of_uint d) = None.
Proof. induction d; cbn; [done | by rewrite IHd ..]. Qed.

Lemma str_no_underscore k : Py.from_last "_" (Py.str k) = None.
Proof.
  unfold Py.str. destruct (Z.to_int k); cbn; by rewrite uint_no_underscore.
Qed.

Lemma str_inj k1 k2 : Py.str k1 = Py.str k2 -> k1 = k2.
Proof.
  unfold Py.str. intros Heq. apply (f_equal NilEmpty.int_of_string) in Heq.
  rewrite !NilEmpty.isi in Heq. apply DecimalZ.to_int_inj. congruence.
Qed.

(** (source, chunk_index) can be read back from the hashed text. *)
Lemma id_key_inj f1 k1 f2 k2 : id_key f1 k1 = id_key f2 k2 -> f1 = f2 /\ k1 = k2.
Proof.
  unfold id_key. intros Heq.
  assert (forall f k, Py.from_last "_" (f +:+ "_" +:+ Py.str k) = Some ("_" +:+ Py.str k)) as Hlast.
  { intros f k. apply from_last_append.
    change ("_" +:+ Py.str k) with (String "_" (Py.str k)).
    cbn [Py.from_last]. by rewrite str_no_underscore. }
  pose proof (Hlast f1 k1) as H1. rewrite Heq, Hlast in H1.
  injection H1 as Hstr. apply str_inj in Hstr. subst k2.
  split; [| done]. by apply append_inv_tail in Heq.
Qed.

(** ** The retriever *)

Section RetrieverProperties.
Context `{Hash} `{Embedder} `{Pgvector}.



Lemma context_map_of_lookup (context_chunks : list Chunk) (i : string) (c : Chunk) :
  Retriever.context_map_of context_chunks !! i = Some c -> c ∈ context_chunks /\ id c = i.
Proof.
  unfold Retriever.context_map_of.
  assert (forall (m : gmap string Chunk),
            fold_left (fun m c => <[id c := c]> m) context_chunks m !! i = Some c ->
            (c ∈ context_chunks /\ id c = i) \/ m !! i = Some c) as Hgen.
  { induction context_chunks as [| c' cs IH]; intros m Hm; [by right |].
    cbn in Hm. destruct (IH _ Hm) as [[Hin Hid] | Hins].
    - left. split; [by right | done].
    - rewrite lookup_insert in Hins. destruct (decide (id c' = i)) as [Heq | Hne].
      + injection Hins as ->. left. split; [by left | done].
      + by right. }
  intros Hm. destruct (Hgen ∅ Hm) as [Hok | Hempty]; [done |].
  by rewrite lookup_empty in Hempty.
Qed.

(** The lists collected by the second loop over the offsets, before sorting. *)
Lemma context_fold (context_map : gmap string Chunk) (filename : string)
    (current_index : Z) (offsets : list Z) (before0 after0 : list Chunk) :
  fold_left
    (fun '(before, after) i =>
       let prev_id := Retriever._generate_chunk_id filename (current_index - i) in
       let next_id := Retriever._generate_chunk_id filename (current_index + i) in
       (match context_map !! prev_id with
        | Some c => before ++ [c]
        | None => before
        end,
        match context_map !! next_id with
        | Some c => after ++ [c]
        | None => after
        end))
    offsets (before0, after0)
  = (before0 ++ omap (fun i => context_map !! Retriever._generate_chunk_id filename (current_index - i)) offsets,
     after0 ++ omap (fun i => context_map !! Retriever._generate_chunk_id filename (current_index + i)) offsets).
Proof.
  revert before0 after0. induction offsets as [| i offsets IH]; intros before0 after0.
  - cbn. by rewrite !app_nil_r.
  - cbn [fold_left omap list_omap]. rewrite IH. cbn zeta.
    destruct (context_map !! _), (context_map !! _);
      by rewrite <- ?app_assoc.
Qed.

Lemma chunk_context_eq (adjacency_window : Z) (context_map : gmap string Chunk) (chunk : Chunk) :
  Retriever.chunk_context adjacency_window context_map chunk
  = {| before :=
         Py.sort_by_key (fun x => chunk_index (metadata x))
           (omap (fun i => context_map !! Retriever._generate_chunk_id
                             (source (metadata chunk)) (chunk_index (metadata chunk) - i))
                 (Py.range 1 (adjacency_window + 1)));
       after :=
         Py.sort_by_key (fun x => chunk_index (metadata x))
           (omap (fun i => context_map !! Retriever._generate_chunk_id
                             (source (metadata chunk)) (chunk_index (metadata chunk) + i))
                 (Py.range 1 (adjacency_window + 1))) |}.
Proof. unfold Retriever.chunk_context. by rewrite context_fold. Qed.






End RetrieverProperties.

(** ** Identity of the chunks the chunker makes *)

Section ChunkIdentity.
Context `{Encoding} `{Hash}.

Lemma window_chunk_id_matches self clock tokens filename start ci :
  id_matches (DocumentProcessor.window_chunk self clock tokens filename start ci).
Proof. reflexivity. Qed.

(** The id of a chunk made by the chunker is what the retriever computes
    from the chunk's source and position. *)
Lemma window_chunk_retriever_id self clock tokens filename start ci :
  let c := DocumentProcessor.window_chunk self clock tokens filename start ci in
  id c = Retriever._generate_chunk_id (source (metadata c)) (chunk_index (metadata c)).
Proof. reflexivity. Qed.

Lemma chunk_loop_id_matches fuel self clock tokens filename start ci acc r :
  Forall id_matches acc ->
  DocumentProcessor.chunk_loop fuel self clock tokens filename start ci acc = Some r ->
  Forall id_matches r.
Proof.
  revert start ci acc. induction fuel as [| fuel IH]; intros start ci acc Hacc; [done |].
  rewrite chunk_loop_S.
  assert (Forall id_matches
            (acc ++ [DocumentProcessor.window_chunk self clock tokens filename start ci])) as Hacc'.
  { apply Forall_app. split; [done |]. constructor; [apply window_chunk_id_matches | constructor]. }
  destruct (start <? _); [| by intros [= <-]].
  destruct (_ =? _); [by intros [= <-] |]. by apply IH.
Qed.

Lemma chunk_content_id_matches fuel self clock content filename r :
  DocumentProcessor._chunk_content fuel self clock content filename = Some r ->
  Forall id_matches r.
Proof. apply chunk_loop_id_matches. constructor. Qed.

(** The ids do not depend on the clock: chunking the same input again
    gives the same ids. *)
Lemma chunk_loop_ids_stable fuel self clock1 clock2 tokens filename start ci acc1 acc2 r1 r2 :
  map id acc1 = map id acc2 ->
  DocumentProcessor.chunk_loop fuel self clock1 tokens filename start ci acc1 = Some r1 ->
  DocumentProcessor.chunk_loop fuel self clock2 tokens filename start ci acc2 = Some r2 ->
  map id r1 = map id r2.
Proof.
  revert start ci acc1 acc2. induction fuel as [| fuel IH]; intros start ci acc1 acc2 Hacc; [done |].
  rewrite !chunk_loop_S.
  assert (map id (acc1 ++ [DocumentProcessor.window_chunk self clock1 tokens filename start ci])
          = map id (acc2 ++ [DocumentProcessor.window_chunk self clock2 tokens filename start ci]))
    as Hacc' by (rewrite !map_app, Hacc; reflexivity).
  destruct (start <? _); [| by intros [= <-] [= <-]].
  destruct (_ =? _); [by intros [= <-] [= <-] |]. by apply IH.
Qed.

End ChunkIdentity.

(** ** Files that cannot be read *)

Section ProcessFile.
Context `{Encoding} `{Hash} `{Readers}.



End ProcessFile.

Section UploadLoop.
Context `{Encoding} `{Hash} `{Readers} `{Embedder} `{Pgvector}.



End UploadLoop.

(** * Runs in the concrete environment *)

Section Runs.
Import Demo.

(** The hash is the one of RFC 1321. *)
Example md5_test_suite :
  (MD5.hexdigest "", MD5.hexdigest "a", MD5.hexdigest "abc",
   MD5.hexdigest "message digest")
  = ("d41d8cd98f00b204e9800998ecf8427e"%string, "0cc175b9c0f1b6a831c399e269772661"%string,
     "900150983cd24fb0d6963f7d28e17f72"%string, "f96b697d7cb7938d525a2f31aaf161d0"%string).
Proof. vm_compute. reflexivity. Qed.

Example md5_two_blocks :
  MD5.hexdigest "aaaaaaaaaaaaaaaaaaaaaaaaaaaaaaaaaaaaaaaaaaaaaaaaaaaaaaaaaaaaaaaa"
  = "014842d480b571495a4a0363793f7367"%string.
Proof. vm_compute. reflexivity. Qed.

Example str_examples :
  (Py.str 0, Py.str 12, Py.str (-3)) = ("0"%string, "12"%string, "-3"%string).
Proof. vm_compute. reflexivity. Qed.

Example slice_examples :
  (Py.slice [1; 2; 3; 4; 5] 1 3, Py.slice [1; 2; 3; 4; 5] 3 (-1),
   Py.slice [1; 2; 3; 4; 5] 4 9, Py.slice [1; 2; 3; 4; 5] (-2) 5)
  = ([2; 3], [4], [5], [4; 5]).
Proof. vm_compute. reflexivity. Qed.

Example path_examples :
  (DocumentProcessor.path_name "/tmp/tmpab12_doc.TXT",
   Py.lower (DocumentProcessor.path_suffix "/tmp/tmpab12_doc.TXT"),
   DocumentProcessor.path_suffix ".bashrc", DocumentProcessor.path_suffix "archive.tar.gz")
  = ("tmpab12_doc.TXT"%string, ".txt"%string, ""%string, ".gz"%string).
Proof. vm_compute. reflexivity. Qed.

(** 1000 tokens, window 800, overlap 100: the windows [0,800) and [700,1000). *)
Example scenario_1000_tokens :
  map (fun c => (chunk_index (metadata c), token_count (metadata c)))
    <$> DocumentProcessor._chunk_content 3 DocumentProcessor.default epoch
          (App.getvalue upload) "a.txt"
  = Some [(0, 800); (1, 300)].
Proof. vm_compute. reflexivity. Qed.

(** On a table filled with the chunks as the chunker made them, the chunk at
    position 0 comes back with nothing before it and chunk 1 after it. *)
Example scenario_neighbours :
  map (fun r => (chunk_index (metadata (primary r)),
                 map (fun b => chunk_index (metadata b)) (before (context r)),
                 map (fun a => chunk_index (metadata a)) (after (context r))))
    <$> (Retriever.retrieve "abcd" 1 1 doc_db).1
  = Py.Returned [(0, [], [1])].
Proof. vm_compute. reflexivity. Qed.

(** C1, refuted as stated: the row of the first chunk is written inside the
    transaction, the embedding of the second chunk fails, and after the call
    the row of the first chunk is not in the table. *)
Lemma C1_counterexample :
  (exists pending,
     VectorStore.add_loop [good_chunk] (documents empty_db) = Py.Returned pending /\
     is_Some (pending !! id good_chunk)) /\
  (VectorStore.add_documents [good_chunk; bad_chunk] empty_db).1
  = Py.Raised (Py.EmbeddingServiceError "empty input") /\
  documents (VectorStore.add_documents [good_chunk; bad_chunk] empty_db).2 !! id good_chunk
  = None.
Proof.
  split; [| split; vm_compute; reflexivity].
  eexists. split; [vm_compute; reflexivity |]. vm_compute. by eexists.
Qed.

(** The rollback, on the two chunks above. *)
Lemma C1_witness :
  VectorStore.add_documents ([good_chunk] ++ bad_chunk :: []) empty_db
  = (Py.Raised (Py.EmbeddingServiceError "empty input"),
     {| documents := documents empty_db; connections := S (connections empty_db) |}).
Proof.
  refine (proj2 (C1_failed_upsert_rolls_back [good_chunk] bad_chunk [] empty_db _ _ _)).
  - repeat constructor. eexists. split; vm_compute; reflexivity.
  - left. vm_compute. reflexivity.
Defined.

(** C2, refuted as stated: with window 10 and overlap 10 the chunker raises
    nothing and returns a chunk. *)
Lemma C2_counterexample :
  DocumentProcessor._chunk_content 2 (DocumentProcessor.__init__ 10 10) epoch "hello" "doc.txt"
  = Some [ {| id := "8574ba652629933424569549ba843714"; text := "hello";
              metadata := {| source := "doc.txt"; chunk_index := 0;
                             processed_date := epoch 0; token_count := 5 |};
              embedding := None; score := None |} ].
Proof. vm_compute. reflexivity. Qed.

(** Window 4 with overlap 1 returns; window 1 with overlap 1 on two tokens
    does not. *)
Lemma C2_witness :
  (exists chunks, forall fuel, (10 < fuel)%nat ->
     DocumentProcessor._chunk_content fuel (DocumentProcessor.__init__ 4 1) epoch
       "abcdefghij" "doc.txt" = Some chunks) /\
  (forall fuel,
     DocumentProcessor._chunk_content fuel (DocumentProcessor.__init__ 1 1) epoch
       "ab" "doc.txt" = None).
Proof.
  split.
  - exact (proj1 (C2_no_configuration_check 4 1 epoch "abcdefghij" "doc.txt") ltac:(lia)).
  - pose proof (proj2 (proj2 (proj2 (C2_no_configuration_check 1 1 epoch "ab" "doc.txt"))))
      as Hstuck.
    apply Hstuck; [lia | vm_compute; reflexivity ..].
Defined.

(** C4, refuted as stated: no tokens give no chunk, not one; and with a
    negative overlap (window 2, overlap -1, tokens a b c d e) the chunks are
    ab and de, so token 2 is in no chunk. *)
Lemma C4_counterexample :
  DocumentProcessor._chunk_content 5 DocumentProcessor.default epoch "" "doc.txt" = Some [] /\
  map text <$> DocumentProcessor._chunk_content 5 (DocumentProcessor.__init__ 2 (-1)) epoch
                 "abcde" "doc.txt"
  = Some ["ab"%string; "de"%string].
Proof. split; vm_compute; reflexivity. Qed.

(** Ten tokens, window 4, overlap 1: three chunks. *)
Lemma C4_witness :
  exists chunks,
    DocumentProcessor._chunk_content 4 small epoch "abcdefghij" "doc.txt" = Some chunks /\
    Z.of_nat (length chunks) = 3.
Proof.
  destruct (C4_chunk_windows small epoch "abcdefghij" "doc.txt")
    as (chunks & Hrun & Hlen & _); [cbn; lia |].
  exists chunks. split; [apply Hrun; vm_compute; reflexivity | exact Hlen].
Defined.

(** Ten tokens, window 4, overlap 1: the loop returns within 11 steps. *)
Lemma C10_witness :
  exists chunks, forall fuel, (10 < fuel)%nat ->
    DocumentProcessor._chunk_content fuel small epoch "abcdefghij" "doc.txt" = Some chunks.
Proof.
  pose proof (C10_chunking_terminates small epoch "abcdefghij" "doc.txt") as Hterm.
  destruct Hterm as [_ Hterm]; [cbn; lia | cbn; lia |]. exact Hterm.
Defined.

(** C3, where the code departs from it: the upload loop chunks the
    temporary file and then renames the source of every chunk. For the
    upload doc.txt the two rows are stored under the hashes of
    tmpab12cd34_doc.txt_0 and tmpab12cd34_doc.txt_1 with source doc.txt, so
    no stored id is the hash of its row's (source, chunk_index), and the
    retriever finds no neighbour of chunk 1 although chunk 0 is stored. *)
Theorem C3_uploaded_ids_do_not_match :
  App.process_uploads 3 ∅ [upload] empty_db
  = Some ([App.Indexed "doc.txt" 2], uploaded_db) /\
  map (fun ir : string * Row =>
         (ir.1, source (row_metadata ir.2), chunk_index (row_metadata ir.2)))
      (map_to_list (documents uploaded_db))
  = [ (md5 "tmpab12cd34_doc.txt_1", "doc.txt"%string, 1);
      (md5 "tmpab12cd34_doc.txt_0", "doc.txt"%string, 0) ] /\
  Forall (fun ir : string * Row =>
            ir.1 <> Retriever._generate_chunk_id (source (row_metadata ir.2))
                      (chunk_index (row_metadata ir.2)))
         (map_to_list (documents uploaded_db)) /\
  map (fun r => (chunk_index (metadata (primary r)), before (context r), after (context r)))
    <$> (Retriever.retrieve "a" 1 1 uploaded_db).1
  = Py.Returned [(1, [], [])].
Proof.
  split; [vm_compute; reflexivity |]. split; [vm_compute; reflexivity |].
  split; [| vm_compute; reflexivity].
  apply (bool_decide_unpack _). vm_compute. exact I.
Qed.





(** The two best rows of the table of the ten-token document. *)
Lemma C9_witness :
  exists res db',
    VectorStore.query "abcd" 2 doc_db = (Py.Returned res, db') /\
    Z.of_nat (length res) <= 2 /\
    StronglySorted (fun c1 c2 => (score_of c2 <= score_of c1)%Q) res.
Proof.
  destruct (C9_query_ranking "abcd" 2 doc_db (repeat (inject_Z 1121) VectorStore.EMBEDDING_DIM))
    as (res & db' & Hq & _ & Hlen & _ & Hsorted & _).
  - vm_compute. reflexivity.
  - lia.
  - exists res, db'. split; [exact Hq |]. split; [exact Hlen | exact Hsorted].
Defined.
End Runs.

(** * Further properties of the code *)

(** ** The chunker: sizes of the chunks, and the tokens they hold *)

Lemma slice_take_drop {A} (l : list A) (s e : Z) :
  0 <= s <= e -> e <= Z.of_nat (length l) ->
  Py.slice l s e = take (Z.to_nat (e - s)) (drop (Z.to_nat s) l).
Proof.
  intros Hs He. unfold Py.slice, Py.clamp.
  destruct (Z.ltb_spec s 0); [lia |]. destruct (Z.ltb_spec e 0); [lia |].
  by rewrite !Z.min_l by lia.
Qed.

(** Where the windows of a valid configuration lie. *)
Lemma window_facts self N k :
  0 <= N ->
  0 <= DocumentProcessor.chunk_overlap self < DocumentProcessor.chunk_size self ->
  0 <= k < expected_count N (DocumentProcessor.chunk_size self) (DocumentProcessor.chunk_overlap self) ->
  0 < N /\
  0 <= window_start self k < window_end self N k /\ window_end self N k <= N /\
  (k + 1 < expected_count N (DocumentProcessor.chunk_size self) (DocumentProcessor.chunk_overlap self) ->
   window_end self N k = window_start self k + DocumentProcessor.chunk_size self /\
   window_end self N k < N) /\
  (k + 1 = expected_count N (DocumentProcessor.chunk_size self) (DocumentProcessor.chunk_overlap self) ->
   window_end self N k = N /\ N <= window_start self k + DocumentProcessor.chunk_size self).
Proof.
  set (W := DocumentProcessor.chunk_size self). set (O := DocumentProcessor.chunk_overlap self).
  intros HN0 HO Hk.
  assert (0 < N) as HN.
  { revert Hk. unfold expected_count. destruct (Z.eqb_spec N 0); lia. }
  destruct (expected_count_facts N W O HO HN) as (Hm & [Hlast Hreach] & Hshort).
  unfold window_end, window_start. fold W O. split; [done |].
  destruct (Z.eq_dec (k + 1) (expected_count N W O)) as [Heq | Hne].
  - replace k with (expected_count N W O - 1) by lia. repeat split; try lia. nia.
  - destruct (Hshort k) as [Hs He]; [lia |]. repeat split; try lia. nia.
Qed.

Section ChunkerWindows.
Context `{Encoding} `{Hash}.
Variables (self : DocumentProcessor.t) (clock : Z -> string).
Variables (content filename : string).

Let W := DocumentProcessor.chunk_size self.
Let O := DocumentProcessor.chunk_overlap self.
Let tokens := encode content.
Let N := Z.of_nat (length tokens).

(** Whatever fuel the chunker returns with, it returns the chunks of the
    windows, in order. *)
Lemma chunk_content_closed_form fuel chunks :
  0 <= O < W ->
  DocumentProcessor._chunk_content fuel self clock content filename = Some chunks ->
  chunks = map (nth_chunk self clock tokens filename) (Py.range 0 (expected_count N W O)).
Proof.
  intros HO Hrun. unfold DocumentProcessor._chunk_content in Hrun.
  set (big := (fuel + S (Z.to_nat (expected_count N W O)))%nat).
  pose proof (chunk_loop_mono self clock tokens filename fuel big 0 0 [] chunks
                ltac:(lia) Hrun) as Hbig.
  assert (0 <= expected_count N W O) as Hcount.
  { unfold expected_count. destruct (Z.eqb_spec N 0); [lia |].
    destruct (Z.ltb_spec W N); [| lia].
    pose proof (ceil_div_spec (N - O) (W - O) ltac:(lia)). nia. }
  pose proof (chunk_loop_closed_form self clock tokens filename big HO) as Hform.
  fold N W O in Hform. specialize (Hform ltac:(lia)).
  assert (Some chunks
          = Some (map (nth_chunk self clock tokens filename) (Py.range 0 (expected_count N W O))))
    as Heq by (by transitivity (DocumentProcessor.chunk_loop big self clock tokens filename 0 0 [])).
  by injection Heq.
Qed.

Lemma token_count_nth_chunk k :
  0 <= O < W -> 0 <= k < expected_count N W O ->
  token_count (metadata (nth_chunk self clock tokens filename k))
  = window_end self N k - window_start self k.
Proof.
  intros HO Hk. destruct (window_facts self N k ltac:(lia) HO Hk) as (_ & Hs & He & _).
  unfold nth_chunk, DocumentProcessor.window_chunk. cbn.
  fold W N (window_end self N k). rewrite length_slice; [done | lia | done].
Qed.

(** X1: with [0 <= chunk_overlap < chunk_size], every chunk the chunker
    returns holds at least one token and at most [chunk_size] tokens, and
    every chunk but the last holds exactly [chunk_size] tokens. *)
Theorem X1_chunk_sizes (fuel : nat) (chunks : list Chunk) :
  0 <= DocumentProcessor.chunk_overlap self < DocumentProcessor.chunk_size self ->
  DocumentProcessor._chunk_content fuel self clock content filename = Some chunks ->
  Forall (fun c => 1 <= token_count (metadata c) <= DocumentProcessor.chunk_size self) chunks /\
  (forall (k : nat) c, chunks !! k = Some c -> (S k < length chunks)%nat ->
     token_count (metadata c) = DocumentProcessor.chunk_size self).
Proof.
  intros HO Hrun. rewrite (chunk_content_closed_form fuel chunks HO Hrun).
  assert (forall (k : nat) c,
            map (nth_chunk self clock tokens filename) (Py.range 0 (expected_count N W O)) !! k
            = Some c ->
            0 <= Z.of_nat k < expected_count N W O /\
            c = nth_chunk self clock tokens filename (Z.of_nat k)) as Hlookup.
  { intros k c Hk. rewrite list_lookup_fmap in Hk.
    destruct (Py.range 0 (expected_count N W O) !! k) as [j |] eqn:Hj; [| done].
    injection Hk as <-.
    assert (j = Z.of_nat k) as ->.
    { unfold Py.range in Hj. rewrite list_lookup_fmap in Hj.
      destruct (seq 0 (Z.to_nat (expected_count N W O - 0)) !! k) as [n |] eqn:Hn; [| done].
      apply lookup_seq in Hn as [-> _]. injection Hj as <-. lia. }
    split; [| done].
    apply lookup_lt_Some in Hj. pose proof (length_range 0 (expected_count N W O)). lia. }
  split.
  - apply Forall_forall. intros c [k Hk]%list_elem_of_lookup.
    destruct (Hlookup k c Hk) as [Hrange ->].
    rewrite token_count_nth_chunk by done.
    destruct (window_facts self N (Z.of_nat k) ltac:(lia) HO Hrange) as (_ & Hs & He & Hfull & Hlast).
    fold W O in Hfull, Hlast.
    destruct (Z.eq_dec (Z.of_nat k + 1) (expected_count N W O)) as [Heq | Hne].
    + destruct (Hlast Heq). lia.
    + destruct Hfull; lia.
  - intros k c Hk Hnotlast. destruct (Hlookup k c Hk) as [Hrange ->].
    rewrite token_count_nth_chunk by done.
    rewrite length_map in Hnotlast. pose proof (length_range 0 (expected_count N W O)).
    destruct (window_facts self N (Z.of_nat k) ltac:(lia) HO Hrange) as (_ & _ & _ & Hfull & _).
    fold W O in Hfull. destruct Hfull; lia.
Qed.

End ChunkerWindows.

Lemma expected_count_nonneg N W O :
  0 <= N -> 0 <= O < W ->
  0 <= expected_count N W O /\ (expected_count N W O = 0 -> N = 0).
Proof.
  intros HN HO. unfold expected_count. destruct (Z.eqb_spec N 0); [lia |].
  destruct (Z.ltb_spec W N); [| lia].
  pose proof (ceil_div_spec (N - O) (W - O) ltac:(lia)). nia.
Qed.

(** The fresh tokens of the first [j] windows are the tokens up to the end
    of window [j - 1]. *)
Lemma fresh_tokens_prefix {A} (self : DocumentProcessor.t) (tokens : list A) (j : nat) :
  0 <= DocumentProcessor.chunk_overlap self < DocumentProcessor.chunk_size self ->
  Z.of_nat j <= expected_count (Z.of_nat (length tokens)) (DocumentProcessor.chunk_size self)
                  (DocumentProcessor.chunk_overlap self) ->
  flat_map (fresh_tokens self tokens) (Py.range 0 (Z.of_nat j))
  = take (Z.to_nat (if (j =? 0)%nat then 0
                    else window_end self (Z.of_nat (length tokens)) (Z.of_nat j - 1))) tokens.
Proof.
  set (W := DocumentProcessor.chunk_size self). set (O := DocumentProcessor.chunk_overlap self).
  set (N := Z.of_nat (length tokens)).
  intros HO. induction j as [| j IH]; intros Hj.
  - cbn. by rewrite range_nil, take_0.
  - replace (Z.of_nat (S j)) with (Z.of_nat j + 1) by lia.
    rewrite range_snoc, flat_map_app by lia. rewrite IH by lia. cbn [flat_map].
    rewrite app_nil_r. replace (Z.of_nat j + 1 - 1) with (Z.of_nat j) by lia.
    destruct (window_facts self N (Z.of_nat j) ltac:(lia) HO ltac:(fold W O; lia))
      as (_ & Hs & He & _).
    set (prev := if (j =? 0)%nat then 0 else window_end self N (Z.of_nat j - 1)).
    assert (window_start self (Z.of_nat j)
            + Z.of_nat (if Z.of_nat j =? 0 then 0%nat else Z.to_nat O) = prev /\
            0 <= prev <= window_end self N (Z.of_nat j)) as [Hprev Hle].
    { unfold prev. destruct j as [| j'].
      { change (Z.of_nat 0) with 0 in *. cbn [Z.eqb Nat.eqb Z.of_nat].
        unfold window_start in *. lia. }
      destruct (Z.eqb_spec (Z.of_nat (S j')) 0); [lia |].
      replace (S j' =? 0)%nat with false by done.
      destruct (window_facts self N (Z.of_nat (S j') - 1) ltac:(lia) HO ltac:(fold W O; lia))
        as (_ & Hs' & He' & Hfull & _).
      destruct Hfull as [Hend Hlt]; [fold W O; lia |].
      assert (window_end self N (Z.of_nat (S j'))
              = Z.min (window_start self (Z.of_nat (S j')) + W) N) as Hthis by done.
      unfold window_start in *. fold W O in Hend, Hthis |- *. nia. }
    unfold fresh_tokens. fold N.
    rewrite slice_take_drop by (fold N; lia).
    rewrite take_drop_commute, drop_drop.
    replace (Z.to_nat (window_start self (Z.of_nat j))
             + (if (Z.of_nat j =? 0)%Z then 0
                else Z.to_nat (DocumentProcessor.chunk_overlap self)))%nat with (Z.to_nat prev)
      by (fold O; destruct (Z.of_nat j =? 0)%Z; lia).
    replace (Z.to_nat (window_start self (Z.of_nat j))
             + Z.to_nat (window_end self N (Z.of_nat j) - window_start self (Z.of_nat j)))%nat
      with (Z.to_nat prev + Z.to_nat (window_end self N (Z.of_nat j) - prev))%nat by lia.
    rewrite <- take_drop_commute, take_take_drop.
    destruct (S j =? 0)%nat eqn:HS; [done |]. f_equal. lia.
Qed.

(** X2: with [0 <= chunk_overlap < chunk_size], chunk [k] holds the text of
    the tokens [[k(W-O), min(k(W-O)+W, N))], and the tokens of the document
    are got back, each once and in order, from the windows of the chunks by
    dropping from every window but the first its first [chunk_overlap]
    tokens. *)
Theorem X2_windows_rebuild_tokens `{Encoding} `{Hash} (self : DocumentProcessor.t)
    (clock : Z -> string) (content filename : string) (fuel : nat) (chunks : list Chunk) :
  0 <= DocumentProcessor.chunk_overlap self < DocumentProcessor.chunk_size self ->
  DocumentProcessor._chunk_content fuel self clock content filename = Some chunks ->
  map text chunks
  = map (fun k => decode (Py.slice (encode content) (window_start self k)
                            (window_end self (Z.of_nat (length (encode content))) k)))
        (Py.range 0 (Z.of_nat (length chunks))) /\
  flat_map (fresh_tokens self (encode content)) (Py.range 0 (Z.of_nat (length chunks)))
  = encode content.
Proof.
  intros HO Hrun.
  pose proof (chunk_content_closed_form self clock content filename fuel chunks HO Hrun) as ->.
  destruct (expected_count_nonneg (Z.of_nat (length (encode content)))
              (DocumentProcessor.chunk_size self) (DocumentProcessor.chunk_overlap self)
              ltac:(lia) HO) as [Hcount Hzero].
  rewrite length_map.
  assert (Z.of_nat (length (Py.range 0 (expected_count (Z.of_nat (length (encode content)))
            (DocumentProcessor.chunk_size self) (DocumentProcessor.chunk_overlap self))))
          = expected_count (Z.of_nat (length (encode content)))
              (DocumentProcessor.chunk_size self) (DocumentProcessor.chunk_overlap self)) as ->
    by (rewrite length_range; lia).
  split; [by rewrite map_map |].
  set (count := expected_count _ _ _) in *.
  pose proof (fresh_tokens_prefix self (encode content) (Z.to_nat count) HO) as Hprefix.
  rewrite Z2Nat.id in Hprefix by lia. rewrite Hprefix by (fold count; lia).
  destruct (Z.to_nat count =? 0)%nat eqn:Hc.
  - apply Nat.eqb_eq in Hc. rewrite take_0. symmetry. apply length_zero_iff_nil.
    specialize (Hzero ltac:(lia)). lia.
  - apply Nat.eqb_neq in Hc.
    assert (0 <= count - 1 < count) as Hrange by lia.
    destruct (window_facts self (Z.of_nat (length (encode content))) (count - 1)
                ltac:(lia) HO Hrange) as (_ & _ & _ & _ & Hlast).
    assert (count - 1 + 1 = count) as Hsucc by lia.
    destruct (Hlast Hsucc) as [-> _]. apply take_ge. lia.
Qed.

(** ** Identity of chunks *)

(** X3: the text hashed for a chunk id determines (source, chunk_index): two
    different pairs are hashed from different texts, also when a file name
    holds underscores or digits. *)
Theorem X3_hashed_texts_differ `{Hash} (f1 : string) (k1 : Z) (f2 : string) (k2 : Z) :
  (f1, k1) <> (f2, k2) ->
  Retriever._generate_chunk_id f1 k1 = md5 (id_key f1 k1) /\
  Retriever._generate_chunk_id f2 k2 = md5 (id_key f2 k2) /\
  id_key f1 k1 <> id_key f2 k2.
Proof.
  intros Hne. split; [done |]. split; [done |].
  intros [-> ->]%id_key_inj. by apply Hne.
Qed.

(** ** [process_file] *)

Section ProcessFileResults.
Context `{Encoding} `{Hash} `{Readers}.

(** X4: [process_file] raises exactly when the file does not exist, and
    then a FileNotFoundError for its path; a file of an unknown type or a
    reader that fails raises nothing. *)
Theorem X4_process_file_raises_only_when_missing (fuel : nat) (self : DocumentProcessor.t)
    (clock : Z -> string) (fs : gmap string string) (file_path : string) (e : Py.exn) :
  DocumentProcessor.process_file fuel self clock fs file_path = Some (Py.Raised e)
  <-> fs !! file_path = None /\ e = Py.FileNotFoundError file_path.
Proof.
  unfold DocumentProcessor.process_file.
  destruct (fs !! file_path) as [bytes |] eqn:Hfile.
  - rewrite bool_decide_eq_true_2 by (by eexists). cbn [negb]. split; [| by intros [? _]].
    destruct (if String.eqb _ _ then _ else _) as [content | e']; [| done].
    by destruct (DocumentProcessor._chunk_content _ _ _ _ _).
  - rewrite bool_decide_eq_false_2 by (by intros [? ?]). cbn [negb]. split.
    + by intros [= <-].
    + by intros [_ ->].
Qed.

Lemma chunk_loop_sources fuel self clock tokens filename start ci acc r :
  Forall (fun c => source (metadata c) = filename) acc ->
  DocumentProcessor.chunk_loop fuel self clock tokens filename start ci acc = Some r ->
  Forall (fun c => source (metadata c) = filename) r.
Proof.
  revert start ci acc. induction fuel as [| fuel IH]; intros start ci acc Hacc; [done |].
  rewrite chunk_loop_S.
  assert (Forall (fun c => source (metadata c) = filename)
            (acc ++ [DocumentProcessor.window_chunk self clock tokens filename start ci])) as Hacc'.
  { apply Forall_app. split; [done |]. by repeat constructor. }
  destruct (start <? _); [| by intros [= <-]].
  destruct (_ =? _); [by intros [= <-] |]. by apply IH.
Qed.

(** The chunks [process_file] returns come from the chunker, run on the
    last component of the path. *)
Lemma process_file_chunks fuel self clock (fs : gmap string string) file_path chunks :
  DocumentProcessor.process_file fuel self clock fs file_path = Some (Py.Returned chunks) ->
  chunks = [] \/
  exists content,
    DocumentProcessor._chunk_content fuel self clock content
      (DocumentProcessor.path_name file_path) = Some chunks.
Proof.
  unfold DocumentProcessor.process_file.
  destruct (negb _); [done |].
  destruct (if String.eqb _ _ then _ else _) as [content | e']; [| intros [= <-]; by left].
  destruct (DocumentProcessor._chunk_content _ _ _ _ _) as [r |] eqn:Hrun; [| done].
  intros [= <-]. right. by exists content.
Qed.

(** X5: every chunk [process_file] returns has as source the last component
    of the path, whatever the directory, and an id that is the hash of that
    source and the chunk's position. *)
Theorem X5_process_file_names_chunks (fuel : nat) (self : DocumentProcessor.t)
    (clock : Z -> string) (fs : gmap string string) (file_path : string)
    (chunks : list Chunk) :
  DocumentProcessor.process_file fuel self clock fs file_path = Some (Py.Returned chunks) ->
  Forall (fun c =>
            source (metadata c) = DocumentProcessor.path_name file_path /\
            id c = Retriever._generate_chunk_id (DocumentProcessor.path_name file_path)
                     (chunk_index (metadata c)))
         chunks.
Proof.
  intros [-> | [content Hrun]]%process_file_chunks; [constructor |].
  pose proof (chunk_loop_sources _ _ _ _ _ _ _ _ _ (Forall_nil_2 _) Hrun) as Hsrc.
  pose proof (chunk_content_id_matches _ _ _ _ _ _ Hrun) as Hid.
  apply Forall_forall. intros c Hc.
  rewrite Forall_forall in Hsrc, Hid. specialize (Hsrc c Hc). specialize (Hid c Hc).
  split; [done |]. unfold id_matches in Hid. by rewrite Hid, Hsrc.
Qed.

End ProcessFileResults.

(** ** The store: what [add_documents] writes *)

Section StoreWrites.
Context `{Embedder} `{Pgvector}.

(** What the loop leaves in the tables of the transaction when every chunk
    is fine. *)
Lemma add_loop_ok (chunks : list Chunk) (pending : gmap string Row) :
  Forall chunk_ok chunks ->
  exists pending',
    VectorStore.add_loop chunks pending = Py.Returned pending' /\
    (forall i, i ∉ map id chunks -> pending' !! i = pending !! i) /\
    (forall pre c post, chunks = pre ++ c :: post -> id c ∉ map id post ->
       exists emb, VectorStore.get_embedding (text c) = Py.Returned emb /\
                   pending' !! id c = Some (row_of c emb)) /\
    (forall i row, pending' !! i = Some row ->
       pending !! i = Some row \/
       exists c, c ∈ chunks /\ i = id c /\ content row = text c /\ row_metadata row = metadata c).
Proof.
  intros Hok. revert pending.
  induction Hok as [| c chunks (emb & Hemb & Hdim) _ IH]; intros pending.
  - exists pending. split; [done |]. split; [done |]. split; [| by left].
    intros [| ? ?] ? ? [=].
  - destruct (IH (<[id c := row_of c emb]> pending)) as (pending' & Hrun & Hframe & Hlast & Hrows).
    exists pending'. cbn [VectorStore.add_loop]. rewrite Hemb. cbn.
    rewrite (execute_upsert_ok _ _ _ Hdim). cbn. fold (row_of c emb).
    split; [exact Hrun |]. split; [| split].
    + intros i Hi. cbn in Hi. apply not_elem_of_cons in Hi as [Hne Hi].
      rewrite (Hframe i Hi). by rewrite lookup_insert_ne.
    + intros [| c0 pre] c' post Heq Hfresh.
      * cbn in Heq. injection Heq as <- <-. exists emb. split; [done |].
        rewrite (Hframe _ Hfresh). by rewrite lookup_insert_eq.
      * cbn in Heq. injection Heq as <- ->. by apply (Hlast pre c' post).
    + intros i row Hrow. destruct (Hrows i row Hrow) as [Hold | (c' & Hc' & Hi & Hrest)].
      * rewrite lookup_insert in Hold. destruct (decide (id c = i)) as [<- | Hne].
        -- injection Hold as <-. right. exists c. split; [by left | done].
        -- by left.
      * right. exists c'. split; [by right | done].
Qed.

(** Whatever the loop does, it writes only under the ids of its chunks, and
    removes nothing. *)
Lemma add_loop_frame (chunks : list Chunk) (pending pending' : gmap string Row) :
  VectorStore.add_loop chunks pending = Py.Returned pending' ->
  (forall i, i ∉ map id chunks -> pending' !! i = pending !! i) /\
  (forall i, is_Some (pending !! i) -> is_Some (pending' !! i)).
Proof.
  revert pending. induction chunks as [| c chunks IH]; intros pending.
  - by intros [= <-].
  - cbn [VectorStore.add_loop].
    destruct (VectorStore.get_embedding (text c)) as [emb |]; [| done]. cbn.
    unfold VectorStore.execute_upsert. destruct (decide _); [| done]. cbn.
    intros [Hframe Hkeep]%IH. split.
    + intros i Hi. cbn in Hi. apply not_elem_of_cons in Hi as [Hne Hi].
      rewrite (Hframe i Hi). by rewrite lookup_insert_ne.
    + intros i Hi. apply Hkeep. rewrite lookup_insert.
      destruct (decide (id c = i)); [by eexists | done].
Qed.

(** X6: when the embedding and the write of every chunk succeed,
    [add_documents] returns; the row of every other id is as before; and
    under the id of a chunk stands the text, metadata and embedding of the
    last chunk of the list with that id (later chunks replace earlier ones
    and earlier rows). *)
Theorem X6_add_documents_upserts (chunks : list Chunk) (db : Database) :
  Forall chunk_ok chunks ->
  exists db',
    VectorStore.add_documents chunks db = (Py.Returned tt, db') /\
    (forall i, i ∉ map id chunks -> documents db' !! i = documents db !! i) /\
    (forall pre c post, chunks = pre ++ c :: post -> id c ∉ map id post ->
       exists emb, VectorStore.get_embedding (text c) = Py.Returned emb /\
         documents db' !! id c
         = Some {| content := text c; row_metadata := metadata c; row_embedding := emb |}).
Proof.
  intros Hok. unfold VectorStore.add_documents. cbn.
  destruct (add_loop_ok chunks (documents db) Hok) as (pending' & -> & Hframe & Hlast & _).
  eexists. split; [reflexivity |]. by split.
Qed.

(** X7: no call of [add_documents], failed or not, removes a row or changes
    a row whose id is not the id of one of its chunks; it opens one
    connection. *)
Theorem X7_add_documents_frame (chunks : list Chunk) (db : Database) :
  (forall i, i ∉ map id chunks ->
     documents (VectorStore.add_documents chunks db).2 !! i = documents db !! i) /\
  (forall i, is_Some (documents db !! i) ->
     is_Some (documents (VectorStore.add_documents chunks db).2 !! i)) /\
  connections (VectorStore.add_documents chunks db).2 = S (connections db).
Proof.
  unfold VectorStore.add_documents. cbn.
  destruct (VectorStore.add_loop chunks (documents db)) as [pending' | e] eqn:Hrun; cbn.
  - destruct (add_loop_frame _ _ _ Hrun) as [Hframe Hkeep]. by repeat split.
  - by repeat split.
Qed.

Lemma fetch_singleton (docs : gmap string Row) (i : string) (row : Row) :
  docs !! i = Some row ->
  map VectorStore.payload
      (fetch_order [i] (filter (fun ir : string * Row => ir.1 ∈ [i]) (map_to_list docs)))
  = [VectorStore.payload (i, row)].
Proof.
  intros Hrow.
  assert (fetch_order [i] (filter (fun ir : string * Row => ir.1 ∈ [i]) (map_to_list docs))
          = [(i, row)]) as ->; [| done].
  apply Permutation_singleton_r. rewrite fetch_order_perm. apply NoDup_Permutation.
  - apply NoDup_filter, NoDup_map_to_list.
  - apply NoDup_singleton.
  - intros [j row']. rewrite list_elem_of_filter, elem_of_map_to_list, !list_elem_of_singleton.
    cbn. split.
    + intros [-> Hj]. congruence.
    + intros [= -> ->]. done.
Qed.

(** X8: a chunk written by a successful [add_documents] and not replaced by
    a later chunk of the same call is read back by [get_chunks_by_ids] with
    the same id, text and metadata, and without embedding or score. *)
Theorem X8_add_then_get_by_id (pre : list Chunk) (c : Chunk) (post : list Chunk)
    (db : Database) :
  Forall chunk_ok (pre ++ c :: post) -> id c ∉ map id post ->
  exists db1 db2,
    VectorStore.add_documents (pre ++ c :: post) db = (Py.Returned tt, db1) /\
    VectorStore.get_chunks_by_ids [id c] db1
    = (Py.Returned [ {| id := id c; text := text c; metadata := metadata c;
                        embedding := None; score := None |} ], db2).
Proof.
  intros Hok Hlast.
  destruct (add_loop_ok _ (documents db) Hok) as (pending' & Hrun & _ & Hwins & _).
  destruct (Hwins pre c post eq_refl Hlast) as (emb & _ & Hrow).
  exists {| documents := pending'; connections := S (connections db) |}. eexists. split.
  - unfold VectorStore.add_documents. cbn. by rewrite Hrun.
  - rewrite get_chunks_by_ids_result. cbn [documents].
    by rewrite (fetch_singleton _ _ _ Hrow).
Qed.

End StoreWrites.

(** ** The store: deleting and querying *)

Section StoreReads.
Context `{Embedder} `{Pgvector}.

(** X9: adding the chunks of a source that the table does not hold yet,
    under ids that are free, and then deleting that source gives back the
    table as it was. *)
Theorem X9_add_then_delete_restores (filename : string) (chunks : list Chunk) (db : Database) :
  Forall chunk_ok chunks ->
  Forall (fun c => source (metadata c) = filename) chunks ->
  Forall (fun c => documents db !! id c = None) chunks ->
  (forall i row, documents db !! i = Some row -> source (row_metadata row) <> filename) ->
  exists db1 db2,
    VectorStore.add_documents chunks db = (Py.Returned tt, db1) /\
    VectorStore.delete_document filename db1 = (Py.Returned tt, db2) /\
    documents db2 = documents db.
Proof.
  intros Hok Hsrc Hfree Hother.
  destruct (add_loop_ok chunks (documents db) Hok) as (pending' & Hrun & Hframe & _ & Hrows).
  exists {| documents := pending'; connections := S (connections db) |}. eexists.
  split; [unfold VectorStore.add_documents; cbn; by rewrite Hrun |].
  split; [apply delete_document_result |]. cbn [documents].
  rewrite Forall_forall in Hsrc, Hfree.
  apply map_eq. intros i. apply option_eq. intros row.
  rewrite map_lookup_filter_Some. cbn. split.
  - intros [Hrow Hne]. destruct (Hrows i row Hrow) as [Hold | (c & Hc & -> & _ & Hmeta)]; [done |].
    rewrite Hmeta in Hne. by destruct (Hne (Hsrc c Hc)).
  - intros Hrow. split; [| by eapply Hother].
    rewrite Hframe; [done |].
    intros (c & Hid & Hc)%list_elem_of_fmap. specialize (Hfree c Hc). congruence.
Qed.

(** X10: deleting a source twice leaves the table as deleting it once, and
    two sources can be deleted in either order. *)
Theorem X10_delete_document_idempotent_commutes (f1 f2 : string) (db : Database) :
  documents (VectorStore.delete_document f1 (VectorStore.delete_document f1 db).2).2
  = documents (VectorStore.delete_document f1 db).2 /\
  documents (VectorStore.delete_document f2 (VectorStore.delete_document f1 db).2).2
  = documents (VectorStore.delete_document f1 (VectorStore.delete_document f2 db).2).2.
Proof.
  rewrite !delete_document_result. cbn [snd documents]. split.
  - apply map_eq. intros i. apply option_eq. intros row.
    rewrite !map_lookup_filter_Some. cbn. tauto.
  - apply map_eq. intros i. apply option_eq. intros row.
    rewrite !map_lookup_filter_Some. cbn. tauto.
Qed.

(** X11: the chunks [query] returns have different ids and are the nearest
    rows: no row left out has a higher score than a returned chunk, and
    when the limit is at least the number of rows every row is returned. *)
Theorem X11_query_returns_the_nearest (query_text : string) (limit : Z) (db : Database)
    (query_embedding : list Q) :
  VectorStore.get_embedding query_text = Py.Returned query_embedding ->
  0 <= limit ->
  exists res db',
    VectorStore.query query_text limit db = (Py.Returned res, db') /\
    NoDup (map id res) /\
    (forall c i row, c ∈ res -> documents db !! i = Some row -> i ∉ map id res ->
       (1 - cosine_distance (row_embedding row) query_embedding <= score_of c)%Q) /\
    (Z.of_nat (size (documents db)) <= limit ->
     forall i, is_Some (documents db !! i) -> i ∈ map id res).
Proof.
  intros Hemb Hlimit. unfold VectorStore.query. rewrite Hemb. cbn.
  destruct (Z.ltb_spec limit 0); [lia |].
  eexists _, _. split; [reflexivity |].
  set (sorted := Py.sort_by (VectorStore.closer query_embedding) (map_to_list (documents db))).
  assert (map id (map (VectorStore.scored query_embedding) (take (Z.to_nat limit) sorted))
          = (take (Z.to_nat limit) sorted).*1) as Hids by (by rewrite map_map).
  rewrite Hids.
  assert (forall i row, documents db !! i = Some row -> (i, row) ∈ sorted) as Hin.
  { intros i row Hrow. apply elem_of_sort_by. by apply elem_of_map_to_list. }
  split; [| split].
  - apply (sublist_NoDup _ (sorted.*1)).
    + unfold sorted. rewrite (sort_by_perm _ (map_to_list (documents db))).
      apply NoDup_fst_map_to_list.
    + apply (fmap_sublist fst), sublist_take.
  - intros c i row ([j rowc] & -> & Hc)%list_elem_of_fmap Hrow Hout.
    pose proof (rows_by_distance_sorted query_embedding (map_to_list (documents db))) as Hsorted.
    fold sorted in Hsorted. rewrite <- (take_drop (Z.to_nat limit) sorted) in Hsorted.
    specialize (Hin i row Hrow).
    rewrite <- (take_drop (Z.to_nat limit) sorted) in Hin.
    apply elem_of_app in Hin as [Hin | Hin].
    { destruct Hout. apply list_elem_of_fmap. by exists (i, row). }
    pose proof (StronglySorted_app_1_elem_of _ _ _ _ _ Hsorted Hc Hin) as Hle.
    apply not_after_closer in Hle. unfold score_of. cbn in Hle |- *. lra.
  - intros Hall i [row Hrow]. rewrite take_ge.
    + apply list_elem_of_fmap. exists (i, row). split; [done | by apply Hin].
    + unfold sorted. rewrite length_sort_by, length_map_to_list. lia.
Qed.

(** X12: which chunks [get_chunks_by_ids] returns depends only on which ids
    are in the list, not on their order or on repetitions: two lists that
    hold the same ids give the same chunks, each as often; the order of the
    chunks is the server's and may differ. *)
Theorem X12_get_chunks_by_ids_ignores_order (ids1 ids2 : list string) (db : Database) :
  (forall i, i ∈ ids1 <-> i ∈ ids2) ->
  exists res1 res2,
    (VectorStore.get_chunks_by_ids ids1 db).1 = Py.Returned res1 /\
    (VectorStore.get_chunks_by_ids ids2 db).1 = Py.Returned res2 /\
    res1 ≡ₚ res2.
Proof.
  intros Hsame. rewrite !get_chunks_by_ids_result. cbn [fst].
  eexists _, _. split; [reflexivity |]. split; [reflexivity |].
  apply (fmap_Permutation VectorStore.payload). rewrite !fetch_order_perm.
  assert (filter (fun ir : string * Row => ir.1 ∈ ids1) (map_to_list (documents db))
          = filter (fun ir : string * Row => ir.1 ∈ ids2) (map_to_list (documents db))) as ->;
    [| done].
  apply list_filter_iff. intros [i row]. cbn. apply Hsame.
Qed.

End StoreReads.

(** ** The retriever: what [retrieve] returns *)

Section RetrieverResults.
Context `{Hash} `{Embedder} `{Pgvector}.

Lemma query_keeps_documents (query_text : string) (limit : Z) (db : Database) :
  documents (VectorStore.query query_text limit db).2 = documents db /\
  (forall ps, (VectorStore.query query_text limit db).1 = Py.Returned ps ->
     connections (VectorStore.query query_text limit db).2 = S (connections db)).
Proof.
  unfold VectorStore.query.
  destruct (VectorStore.get_embedding query_text) as [q | e]; [| done]. cbn.
  by destruct (limit <? 0).
Qed.

(** The steps of [retrieve] after a query that returned. *)
Lemma retrieve_after_query (query : string) (top_k adjacency_window : Z) (db db1 : Database)
    (ps : list Chunk) :
  VectorStore.query query top_k db = (Py.Returned ps, db1) ->
  Retriever.retrieve query top_k adjacency_window db
  = (Py.Returned
       (map (fun p =>
               {| primary := p;
                  context := Retriever.chunk_context adjacency_window
                    (Retriever.context_map_of
                       (map VectorStore.payload
                          (fetch_order (Retriever.ids_to_fetch ps adjacency_window)
                             (filter (fun ir : string * Row =>
                                        ir.1 ∈ Retriever.ids_to_fetch ps adjacency_window)
                                     (map_to_list (documents db)))))) p |}) ps),
     {| documents := documents db;
        connections := match Retriever.ids_to_fetch ps adjacency_window with
                       | [] => S (connections db)
                       | _ => S (S (connections db))
                       end |}).
Proof.
  intros Hq. destruct (query_keeps_documents query top_k db) as [Hdocs Hconn].
  rewrite Hq in Hdocs, Hconn. cbn in Hdocs, Hconn. specialize (Hconn ps eq_refl).
  unfold Retriever.retrieve, mbind, DB_bind, mret, DB_ret. rewrite Hq.
  rewrite get_chunks_by_ids_result, Hdocs, Hconn.
  by destruct (Retriever.ids_to_fetch ps adjacency_window).
Qed.

(** X13: [retrieve] returns one result for each chunk the query returned,
    in the order of the query, and leaves the table as it is; an error of
    the query is raised unchanged. *)
Theorem X13_retrieve_keeps_query_order (query : string) (top_k adjacency_window : Z)
    (db : Database) :
  match VectorStore.query query top_k db with
  | (Py.Returned ps, _) =>
      exists res db',
        Retriever.retrieve query top_k adjacency_window db = (Py.Returned res, db') /\
        map primary res = ps /\ documents db' = documents db
  | (Py.Raised e, db1) =>
      Retriever.retrieve query top_k adjacency_window db = (Py.Raised e, db1)
  end.
Proof.
  destruct (VectorStore.query query top_k db) as [[ps | e] db1] eqn:Hq.
  - eexists _, _.
    split; [exact (retrieve_after_query query top_k adjacency_window db db1 ps Hq) |].
    split; [| done]. rewrite map_map. cbn. apply map_id.
  - unfold Retriever.retrieve, mbind, DB_bind. by rewrite Hq.
Qed.

(** The chunks of a context are fetched chunks, found under the ids of
    positions at most [adjacency_window] away. *)
Lemma elem_of_context (adjacency_window : Z) (fetched : list Chunk) (p c : Chunk) :
  (c ∈ before (Retriever.chunk_context adjacency_window (Retriever.context_map_of fetched) p)
   <-> exists i, 1 <= i <= adjacency_window /\
         Retriever.context_map_of fetched
           !! Retriever._generate_chunk_id (source (metadata p)) (chunk_index (metadata p) - i)
         = Some c) /\
  (c ∈ after (Retriever.chunk_context adjacency_window (Retriever.context_map_of fetched) p)
   <-> exists i, 1 <= i <= adjacency_window /\
         Retriever.context_map_of fetched
           !! Retriever._generate_chunk_id (source (metadata p)) (chunk_index (metadata p) + i)
         = Some c).
Proof.
  rewrite chunk_context_eq. cbn [before after]. unfold Py.sort_by_key.
  rewrite !elem_of_sort_by, !list_elem_of_omap.
  split; (split; [intros (i & Hi%elem_of_range & Hc) | intros (i & Hi & Hc)];
          exists i; (split; [first [lia | apply elem_of_range; lia] | done])).
Qed.

Lemma length_omap_le {A B} (f : A -> option B) (l : list A) :
  (length (omap f l) <= length l)%nat.
Proof. induction l as [| x l IH]; cbn; [done |]. destruct (f x); cbn; lia. Qed.

(** X14: a chunk returned as primary is in the context of no result, its
    own or another's: two primary chunks next to each other do not list
    each other. *)
Theorem X14_primary_never_in_context (query : string) (top_k adjacency_window : Z)
    (db db' : Database) (res : list Expanded) :
  Retriever.retrieve query top_k adjacency_window db = (Py.Returned res, db') ->
  Forall (fun r =>
            Forall (fun c => id c ∉ map (fun r' => id (primary r')) res)
                   (before (context r) ++ after (context r)))
         res.
Proof.
  intros Hret.
  destruct (VectorStore.query query top_k db) as [[ps | e] db1] eqn:Hq;
    [| unfold Retriever.retrieve, mbind, DB_bind in Hret; by rewrite Hq in Hret].
  rewrite (retrieve_after_query _ _ _ _ _ _ Hq) in Hret. injection Hret as <- _.
  rewrite map_map. cbn [primary].
  assert (forall (i : string) (c : Chunk),
            Retriever.context_map_of
              (map VectorStore.payload
                 (fetch_order (Retriever.ids_to_fetch ps adjacency_window)
                    (filter (fun ir : string * Row =>
                               ir.1 ∈ Retriever.ids_to_fetch ps adjacency_window)
                            (map_to_list (documents db))))) !! i = Some c ->
            id c ∉ map id ps) as Hfetched.
  { intros i c [(j & row & Hj & _ & ->)%elem_of_fetched _]%context_map_of_lookup. cbn.
    unfold Retriever.ids_to_fetch in Hj.
    apply elem_of_elements, elem_of_difference in Hj as [_ Hj].
    by rewrite elem_of_list_to_set in Hj. }
  apply Forall_forall. intros r (p & -> & Hp)%list_elem_of_fmap. cbn [context].
  apply Forall_forall. intros c [Hc | Hc]%elem_of_app.
  - apply elem_of_context in Hc as (i & _ & Hc). by eapply Hfetched.
  - apply elem_of_context in Hc as (i & _ & Hc). by eapply Hfetched.
Qed.

(** X15: every result has at most [adjacency_window] chunks before and at
    most [adjacency_window] after; with a window of 0 or less both lists are
    empty and only the query opens a connection. *)
Theorem X15_context_is_bounded (query : string) (top_k adjacency_window : Z)
    (db db' : Database) (res : list Expanded) :
  Retriever.retrieve query top_k adjacency_window db = (Py.Returned res, db') ->
  Forall (fun r =>
            Z.of_nat (length (before (context r))) <= Z.max 0 adjacency_window /\
            Z.of_nat (length (after (context r))) <= Z.max 0 adjacency_window)
         res /\
  (adjacency_window <= 0 -> connections db' = S (connections db)).
Proof.
  intros Hret.
  destruct (VectorStore.query query top_k db) as [[ps | e] db1] eqn:Hq;
    [| unfold Retriever.retrieve, mbind, DB_bind in Hret; by rewrite Hq in Hret].
  rewrite (retrieve_after_query _ _ _ _ _ _ Hq) in Hret. injection Hret as <- <-.
  split.
  - apply Forall_forall. intros r (p & -> & Hp)%list_elem_of_fmap. cbn [context].
    rewrite chunk_context_eq. cbn [before after]. unfold Py.sort_by_key.
    rewrite !length_sort_by.
    pose proof (length_range 1 (adjacency_window + 1)) as Hlen.
    split; (etransitivity; [apply inj_le, length_omap_le | lia]).
  - intros Hzero. cbn [connections].
    assert (Retriever.ids_to_fetch ps adjacency_window = []) as ->; [| done].
    assert (Py.range 1 (adjacency_window + 1) = []) as Hrange.
    { apply length_zero_iff_nil. pose proof (length_range 1 (adjacency_window + 1)). lia. }
    assert (forall acc (l : list Chunk),
              fold_left (Retriever.add_neighbours adjacency_window) l acc = acc) as Hfold.
    { intros acc l. revert acc. induction l as [| c l IH]; intros acc; [done |].
      cbn [fold_left]. rewrite IH. unfold Retriever.add_neighbours. by rewrite Hrange. }
    unfold Retriever.ids_to_fetch. rewrite Hfold.
    apply elements_empty_iff, equiv_empty. intros x [Hx _]%elem_of_difference.
    by apply not_elem_of_empty in Hx.
Qed.

End RetrieverResults.

Section RetrieverCompleteness.
Context `{Hash} `{Embedder} `{Pgvector}.

(** The first loop over the offsets only adds ids, and adds the ids of both
    neighbours at every offset, the earlier one when its position is not
    negative. *)
Lemma neighbours_fold (filename : string) (current_index : Z) (offsets : list Z)
    (acc : gset string) :
  let result :=
    fold_left
      (fun adjacent_ids i =>
         let prev_index := current_index - i in
         let next_index := current_index + i in
         let adjacent_ids :=
           if 0 <=? prev_index
           then adjacent_ids ∪ {[ Retriever._generate_chunk_id filename prev_index ]}
           else adjacent_ids in
         adjacent_ids ∪ {[ Retriever._generate_chunk_id filename next_index ]})
      offsets acc in
  (forall x, x ∈ acc -> x ∈ result) /\
  (forall i, i ∈ offsets ->
     (0 <= current_index - i ->
      Retriever._generate_chunk_id filename (current_index - i) ∈ result) /\
     Retriever._generate_chunk_id filename (current_index + i) ∈ result).
Proof.
  revert acc. induction offsets as [| j l IH]; intros acc; cbn zeta.
  - split; [done |]. intros i Hi. by apply elem_of_nil in Hi.
  - cbn [fold_left]. cbn zeta in IH.
    set (acc' := (if 0 <=? current_index - j
                  then acc ∪ {[ Retriever._generate_chunk_id filename (current_index - j) ]}
                  else acc)
                 ∪ {[ Retriever._generate_chunk_id filename (current_index + j) ]}).
    destruct (IH acc') as [Hmono Hadds]. split.
    + intros x Hx. apply Hmono. unfold acc'. apply elem_of_union. left.
      destruct (0 <=? _); [apply elem_of_union; by left | done].
    + intros i [-> | Hi]%elem_of_cons; [| by apply Hadds]. split.
      * intros Hprev. apply Hmono. unfold acc'. apply elem_of_union. left.
        destruct (Z.leb_spec 0 (current_index - j)); [| lia].
        apply elem_of_union. right. by apply elem_of_singleton.
      * apply Hmono. unfold acc'. apply elem_of_union. right. by apply elem_of_singleton.
Qed.

Lemma adjacent_ids_complete (adjacency_window : Z) (ps : list Chunk) (acc : gset string)
    (p : Chunk) (i : Z) :
  p ∈ ps -> 1 <= i <= adjacency_window ->
  (0 <= chunk_index (metadata p) - i ->
   Retriever._generate_chunk_id (source (metadata p)) (chunk_index (metadata p) - i)
     ∈ fold_left (Retriever.add_neighbours adjacency_window) ps acc) /\
  Retriever._generate_chunk_id (source (metadata p)) (chunk_index (metadata p) + i)
    ∈ fold_left (Retriever.add_neighbours adjacency_window) ps acc.
Proof.
  intros Hp Hi.
  assert (forall (l : list Chunk) acc x,
            x ∈ acc -> x ∈ fold_left (Retriever.add_neighbours adjacency_window) l acc) as Hmono.
  { induction l as [| c l IH]; intros acc0 x Hx; [done |]. cbn [fold_left]. apply IH.
    by apply (neighbours_fold (source (metadata c)) (chunk_index (metadata c))). }
  revert acc. induction ps as [| c ps IH]; intros acc; [by apply elem_of_nil in Hp |].
  cbn [fold_left]. apply elem_of_cons in Hp as [<- | Hp]; [| by apply IH].
  destruct (neighbours_fold (source (metadata p)) (chunk_index (metadata p))
              (Py.range 1 (adjacency_window + 1)) acc) as [_ Hadds].
  destruct (Hadds i) as [Hprev Hnext]; [apply elem_of_range; lia |].
  split; [intros Hnonneg |]; apply Hmono; [by apply Hprev | exact Hnext].
Qed.

Lemma context_map_of_complete (cs : list Chunk) (c : Chunk) :
  c ∈ cs -> (forall c', c' ∈ cs -> id c' = id c -> c' = c) ->
  Retriever.context_map_of cs !! id c = Some c.
Proof.
  intros Hc Huniq.
  assert (forall (l : list Chunk) (m : gmap string Chunk),
            c ∈ l \/ is_Some (m !! id c) ->
            is_Some (fold_left (fun m c => <[id c := c]> m) l m !! id c)) as Hsome.
  { induction l as [| c' l IH]; intros m Hm.
    - destruct Hm as [Hm | Hm]; [by apply elem_of_nil in Hm | done].
    - cbn [fold_left]. apply IH. destruct Hm as [[-> | Hm]%elem_of_cons | Hm].
      + right. rewrite lookup_insert_eq. by eexists.
      + by left.
      + right. rewrite lookup_insert. destruct (decide (id c' = id c)); [by eexists | done]. }
  destruct (Hsome cs ∅ (or_introl Hc)) as [c' Hc'].
  fold (Retriever.context_map_of cs) in Hc'. rewrite Hc'. f_equal.
  apply context_map_of_lookup in Hc' as [Hin Hid]. by apply Huniq.
Qed.

(** X16: a stored chunk under the id the retriever computes for a position
    at most [adjacency_window] before (and not negative) or after a primary
    chunk, of the same source, is in that result's [before] or [after],
    unless it is a primary chunk itself. *)
Theorem X16_stored_neighbours_are_returned (query : string) (top_k adjacency_window : Z)
    (db db' : Database) (res : list Expanded) (r : Expanded) (i : Z) (row : Row) :
  Retriever.retrieve query top_k adjacency_window db = (Py.Returned res, db') ->
  r ∈ res -> 1 <= i <= adjacency_window ->
  let filename := source (metadata (primary r)) in
  let current_index := chunk_index (metadata (primary r)) in
  (0 <= current_index - i ->
   documents db !! Retriever._generate_chunk_id filename (current_index - i) = Some row ->
   Retriever._generate_chunk_id filename (current_index - i)
     ∉ map (fun r' => id (primary r')) res ->
   VectorStore.payload (Retriever._generate_chunk_id filename (current_index - i), row)
     ∈ before (context r)) /\
  (documents db !! Retriever._generate_chunk_id filename (current_index + i) = Some row ->
   Retriever._generate_chunk_id filename (current_index + i)
     ∉ map (fun r' => id (primary r')) res ->
   VectorStore.payload (Retriever._generate_chunk_id filename (current_index + i), row)
     ∈ after (context r)).
Proof.
  intros Hret Hr Hi filename current_index.
  destruct (VectorStore.query query top_k db) as [[ps | e] db1] eqn:Hq;
    [| unfold Retriever.retrieve, mbind, DB_bind in Hret; by rewrite Hq in Hret].
  rewrite (retrieve_after_query _ _ _ _ _ _ Hq) in Hret. injection Hret as <- _.
  apply list_elem_of_fmap in Hr as (p & -> & Hp).
  rewrite map_map. cbn [primary context] in *.
  set (fetched := map VectorStore.payload _).
  assert (forall k, 
            Retriever._generate_chunk_id filename k ∈ fold_left
              (Retriever.add_neighbours adjacency_window) ps ∅ ->
            documents db !! Retriever._generate_chunk_id filename k = Some row ->
            Retriever._generate_chunk_id filename k ∉ map id ps ->
            Retriever.context_map_of fetched !! Retriever._generate_chunk_id filename k
            = Some (VectorStore.payload (Retriever._generate_chunk_id filename k, row)))
    as Hfound.
  { intros k Hadj Hrow Hnotprimary.
    apply (context_map_of_complete fetched
             (VectorStore.payload (Retriever._generate_chunk_id filename k, row))).
    - apply elem_of_fetched. eexists _, row. split; [| done].
      unfold Retriever.ids_to_fetch. apply elem_of_elements, elem_of_difference.
      split; [done |]. by rewrite elem_of_list_to_set.
    - intros c' (j & row' & _ & Hrow' & ->)%elem_of_fetched Hid. cbn in Hid. subst j.
      congruence. }
  destruct (adjacent_ids_complete adjacency_window ps ∅ p i Hp Hi) as [Hprev Hnext].
  split.
  - intros Hnonneg Hrow Hnotprimary. apply elem_of_context. exists i. split; [done |].
    apply Hfound; [by apply Hprev | done ..].
  - intros Hrow Hnotprimary. apply elem_of_context. exists i. split; [done |].
    by apply Hfound.
Qed.

End RetrieverCompleteness.

(** ** The pipeline *)

Lemma string_append_assoc (a b c : string) : (a +:+ b) +:+ c = a +:+ (b +:+ c).
Proof.
  induction a as [| x a IH]; [done |].
  change (String x ((a +:+ b) +:+ c) = String x (a +:+ (b +:+ c))). by f_equal.
Qed.

Lemma occurs_in_refl (x : string) : occurs_in x x.
Proof.
  exists ""%string, ""%string. change (x = x +:+ "").
  induction x as [| a x IH]; [done |]. change (String a x = String a (x +:+ "")). by f_equal.
Qed.

Lemma occurs_in_append (x s pre post : string) :
  occurs_in x s -> occurs_in x (pre +:+ s +:+ post).
Proof.
  intros (p & q & ->). exists (pre +:+ p), (q +:+ post).
  by rewrite !string_append_assoc.
Qed.

Lemma occurs_in_append_r (x s pre : string) : occurs_in x s -> occurs_in x (pre +:+ s).
Proof.
  intros (p & q & ->). exists (pre +:+ p), q. by rewrite !string_append_assoc.
Qed.

Lemma occurs_in_trans (x y z : string) : occurs_in x y -> occurs_in y z -> occurs_in x z.
Proof. intros Hxy (p & q & ->). by apply occurs_in_append. Qed.

(** Every joined string occurs in the result of [sep.join(l)]. *)
Lemma occurs_in_concat (sep x : string) (l : list string) :
  x ∈ l -> occurs_in x (String.concat sep l).
Proof.
  induction l as [| y l IH]; intros Hx; [by apply elem_of_nil in Hx |].
  destruct l as [| z l].
  - apply list_elem_of_singleton in Hx as ->. apply occurs_in_refl.
  - change (String.concat sep (y :: z :: l)) with (y +:+ sep +:+ String.concat sep (z :: l)).
    apply elem_of_cons in Hx as [-> | Hx].
    + exists ""%string, (sep +:+ String.concat sep (z :: l)). done.
    + apply occurs_in_append_r, occurs_in_append_r. by apply IH.
Qed.

Section PipelineProperties.
Context `{Hash} `{Embedder} `{Pgvector} `{Generator} `{FloatFormat}.

(** X17: the context handed to the generator holds, for every result, the
    header with its source, the line of its primary text and the line of
    every chunk of its [before] and [after]. *)
Theorem X17_format_context_holds_every_text (results : list Expanded) (r : Expanded) :
  r ∈ results ->
  occurs_in ("--- Document: " +:+ source (metadata (primary r))) (RAGPipeline._format_context results) /\
  occurs_in ("TARGET CHUNK: " +:+ text (primary r)) (RAGPipeline._format_context results) /\
  (forall c, c ∈ before (context r) ++ after (context r) ->
     occurs_in ("(... " +:+ text c +:+ " ...)") (RAGPipeline._format_context results)).
Proof.
  intros Hr.
  assert (occurs_in (RAGPipeline.format_item r) (RAGPipeline._format_context results)) as Hitem.
  { apply occurs_in_concat. apply list_elem_of_fmap. by exists r. }
  assert (forall line, line ∈ RAGPipeline.block_of r ->
            occurs_in line (RAGPipeline._format_context results)) as Hline.
  { intros line Hline. eapply occurs_in_trans; [| exact Hitem].
    unfold RAGPipeline.format_item. apply occurs_in_append_r.
    by apply occurs_in_concat. }
  split; [| split].
  - eapply occurs_in_trans; [| exact Hitem]. unfold RAGPipeline.format_item.
    rewrite !string_append_assoc.
    exists ""%string. eexists. cbn [String.append]. by rewrite !string_append_assoc.
  - apply Hline. unfold RAGPipeline.block_of. rewrite !elem_of_app, list_elem_of_singleton. tauto.
  - intros c Hc. apply Hline. unfold RAGPipeline.block_of.
    rewrite !elem_of_app, !list_elem_of_fmap. apply elem_of_app in Hc as [Hc | Hc].
    + left. by exists c.
    + right. right. by exists c.
Qed.

Lemma query_length (query_text : string) (limit : Z) (db db1 : Database) (ps : list Chunk) :
  VectorStore.query query_text limit db = (Py.Returned ps, db1) ->
  Z.of_nat (length ps) <= limit.
Proof.
  unfold VectorStore.query.
  destruct (VectorStore.get_embedding query_text) as [q | e]; [| done]. cbn.
  destruct (Z.ltb_spec limit 0); [done |]. intros [= <- _].
  rewrite length_map, length_take. lia.
Qed.

(** X18: [answer_query] retrieves with [top_k = 5] and a window of 1: an
    error of the retrieval is raised unchanged; otherwise the generator gets
    the context formatted from at most 5 results, each with at most one
    chunk before and one after, and these results are returned unchanged
    beside the answer; an error of the generator is raised. *)
Theorem X18_answer_query_outcomes (query : string) (db : Database) :
  match Retriever.retrieve query 5 1 db with
  | (Py.Returned res, db1) =>
      (length res <= 5)%nat /\
      Forall (fun r => (length (before (context r)) <= 1)%nat /\
                       (length (after (context r)) <= 1)%nat) res /\
      RAGPipeline.answer_query query db
      = (match chat_completions_create RAGPipeline.system_prompt
                 ("Context:" +:+ RAGPipeline.nl +:+ RAGPipeline._format_context res
                  +:+ RAGPipeline.nl +:+ RAGPipeline.nl +:+ "Question: " +:+ query) with
         | Py.Returned text => Py.Returned {| answer := text; retrieval_details := res |}
         | Py.Raised e => Py.Raised e
         end, db1)
  | (Py.Raised e, db1) => RAGPipeline.answer_query query db = (Py.Raised e, db1)
  end.
Proof.
  unfold RAGPipeline.answer_query, mbind, DB_bind, mret, DB_ret.
  destruct (Retriever.retrieve query 5 1 db) as [[res | e] db1] eqn:Hret; [| done].
  split; [| split].
  - destruct (VectorStore.query query 5 db) as [[ps | e] db0] eqn:Hq;
      [| unfold Retriever.retrieve, mbind, DB_bind in Hret; by rewrite Hq in Hret].
    rewrite (retrieve_after_query _ _ _ _ _ _ Hq) in Hret. injection Hret as <- _.
    rewrite length_map. pose proof (query_length _ _ _ _ _ Hq). lia.
  - destruct (VectorStore.query query 5 db) as [[ps | e] db0] eqn:Hq;
      [| unfold Retriever.retrieve, mbind, DB_bind in Hret; by rewrite Hq in Hret].
    rewrite (retrieve_after_query _ _ _ _ _ _ Hq) in Hret. injection Hret as <- _.
    apply Forall_forall. intros r (p & -> & Hp)%list_elem_of_fmap. cbn [context].
    rewrite chunk_context_eq. cbn [before after]. unfold Py.sort_by_key.
    rewrite !length_sort_by. split; apply (length_omap_le _ [1]).
  - unfold RAGPipeline.create_completion. by destruct (chat_completions_create _ _).
Qed.

End PipelineProperties.

(** ** The upload loop *)

Section UploadResults.
Context `{Encoding} `{Hash} `{Readers} `{Embedder} `{Pgvector}.

Lemma add_documents_raised (chunks : list Chunk) (db db1 : Database) (e : Py.exn) :
  VectorStore.add_documents chunks db = (Py.Raised e, db1) -> documents db1 = documents db.
Proof.
  unfold VectorStore.add_documents. cbn.
  destruct (VectorStore.add_loop chunks (documents db)); [done |]. by intros [= _ <-].
Qed.

(** What one pass of the upload loop can do. *)
Lemma process_upload_cases fuel (fs : gmap string string) f db r db' :
  App.process_upload fuel fs f db = Some (r, db') ->
  report_name r = App.name f /\
  ((documents db' = documents db /\ forall n k, r <> App.Indexed n k) \/
   exists chunks,
     DocumentProcessor.process_file fuel App.processor (App.clock f)
       (<[App.tmp_path f := App.getvalue f]> fs) (App.tmp_path f) = Some (Py.Returned chunks) /\
     VectorStore.add_documents (map (fun chunk => set_source chunk (App.name f)) chunks) db
     = (Py.Returned tt, db') /\
     r = App.Indexed (App.name f)
           (length (map (fun chunk => set_source chunk (App.name f)) chunks))).
Proof.
  unfold App.process_upload.
  destruct (DocumentProcessor.process_file _ _ _ _ _) as [[chunks | e] |];
    cbn -[VectorStore.add_documents]; [| | done].
  - destruct chunks as [| c chunks]; [intros [= <- <-]; split; [done |]; by left |].
    match goal with
    | |- context [VectorStore.add_documents ?l db] =>
        destruct (VectorStore.add_documents l db) as [[[] | e] db1] eqn:Hadd
    end.
    + intros [= <- <-]. split; [done |]. right. exists (c :: chunks). by split.
    + intros [= <- <-]. split; [done |]. left. split; [| done].
      by apply add_documents_raised in Hadd.
  - intros [= <- <-]. split; [done |]. by left.
Qed.

(** X20: only a file reported as indexed changes the table: when no file of
    a batch is indexed (no content, or an error while adding), the table
    after the batch is the table before it. *)
Theorem X20_unindexed_files_change_nothing (fuel : nat) (fs : gmap string string)
    (uploaded_files : list App.UploadedFile) (db db' : Database) (reports : list App.Report) :
  App.process_uploads fuel fs uploaded_files db = Some (reports, db') ->
  Forall (fun r => forall n k, r <> App.Indexed n k) reports ->
  documents db' = documents db.
Proof.
  revert db reports. induction uploaded_files as [| f rest IH]; intros db reports.
  - by intros [= _ <-].
  - cbn [App.process_uploads].
    destruct (App.process_upload fuel fs f db) as [[r db1] |] eqn:Hone; [| done]. cbn.
    destruct (App.process_uploads fuel fs rest db1) as [[rs db2] |] eqn:Hrest; [| done]. cbn.
    intros [= <- <-] [Hr Hrs]%Forall_cons.
    rewrite (IH db1 rs Hrest Hrs).
    destruct (process_upload_cases _ _ _ _ _ _ Hone)
      as [_ [[Hsame _] | (chunks & Hfile & Hadd & Hindexed)]]; [done |].
    by destruct (Hr _ _ Hindexed).
Qed.

Lemma add_loop_rows (chunks : list Chunk) (pending pending' : gmap string Row) :
  VectorStore.add_loop chunks pending = Py.Returned pending' ->
  forall i row, pending' !! i = Some row ->
    pending !! i = Some row \/
    exists c, c ∈ chunks /\ i = id c /\ content row = text c /\ row_metadata row = metadata c.
Proof.
  revert pending. induction chunks as [| c chunks IH]; intros pending.
  - intros [= <-] i row Hrow. by left.
  - cbn [VectorStore.add_loop].
    destruct (VectorStore.get_embedding (text c)) as [emb |]; [| done]. cbn.
    unfold VectorStore.execute_upsert. destruct (decide _); [| done]. cbn.
    intros Hrun i row Hrow.
    destruct (IH _ Hrun i row Hrow) as [Hold | (c' & Hc' & Hrest)].
    + rewrite lookup_insert in Hold. destruct (decide (id c = i)) as [<- | Hne].
      * injection Hold as <-. right. exists c. split; [by left | done].
      * by left.
    + right. exists c'. split; [by right | done].
Qed.

(** The name of the temporary file of an upload. *)
Lemma path_name_tmp_path (f : App.UploadedFile) :
  Py.from_last "/" (App.tmp_token f +:+ "_" +:+ App.name f) = None ->
  DocumentProcessor.path_name (App.tmp_path f)
  = ("tmp" +:+ App.tmp_token f +:+ "_" +:+ App.name f)%string.
Proof.
  intros Hnoslash. unfold DocumentProcessor.path_name, App.tmp_path.
  set (rest := (App.tmp_token f +:+ "_" +:+ App.name f)%string) in *.
  change ("/tmp/tmp" +:+ rest)%string
    with (String "/" (String "t" (String "m" (String "p"
           (String "/" (String "t" (String "m" (String "p" rest)))))))).
  cbn [Py.from_last]. rewrite Hnoslash. reflexivity.
Qed.

(** X21: every row the upload of a file writes has the uploaded name as
    source, and as id the hash of the name of the temporary file (tmp, the
    random part, an underscore and the uploaded name) and the chunk's
    position; the other rows are as before. *)
Theorem X21_upload_ids_use_temporary_name (fuel : nat) (fs : gmap string string)
    (f : App.UploadedFile) (db db' : Database) (r : App.Report) :
  App.process_upload fuel fs f db = Some (r, db') ->
  Py.from_last "/" (App.tmp_token f +:+ "_" +:+ App.name f) = None ->
  forall i row, documents db' !! i = Some row ->
    documents db !! i = Some row \/
    (source (row_metadata row) = App.name f /\
     i = Retriever._generate_chunk_id ("tmp" +:+ App.tmp_token f +:+ "_" +:+ App.name f)
           (chunk_index (row_metadata row))).
Proof.
  intros Hone Hnoslash i row Hrow.
  destruct (process_upload_cases _ _ _ _ _ _ Hone)
    as [_ [[Hsame _] | (chunks & Hfile & Hadd & _)]].
  { left. by rewrite <- Hsame. }
  revert Hadd. unfold VectorStore.add_documents. cbn.
  destruct (VectorStore.add_loop (map (fun chunk => set_source chunk (App.name f)) chunks)
              (documents db)) as [pending' |] eqn:Hrun; [| done].
  intros [= <-]. cbn in Hrow.
  destruct (add_loop_rows _ _ _ Hrun i row Hrow) as [Hold | (c & Hc & -> & _ & Hmeta)];
    [by left |].
  right. apply list_elem_of_fmap in Hc as (c0 & -> & Hc0). rewrite Hmeta. cbn.
  split; [done |].
  apply process_file_chunks in Hfile as [-> | (content & Hchunks)];
    [by apply elem_of_nil in Hc0 |].
  pose proof (chunk_loop_sources _ _ _ _ _ _ _ _ _ (Forall_nil_2 _) Hchunks) as Hsrc.
  pose proof (chunk_content_id_matches _ _ _ _ _ _ Hchunks) as Hid.
  rewrite Forall_forall in Hsrc, Hid. specialize (Hsrc c0 Hc0). specialize (Hid c0 Hc0).
  unfold id_matches in Hid. rewrite Hid, Hsrc, (path_name_tmp_path f Hnoslash).
  reflexivity.
Qed.

End UploadResults.

(** ** The upload loop with the saving of the temporary files *)

Section UploadLoop.
Context `{Encoding} `{Hash} `{Readers} `{Embedder} `{Pgvector} `{TempDir}.

(** With a positive step [process_file] returns, and more fuel does not
    change what it returns. *)
Lemma process_file_returns (self : DocumentProcessor.t) (clock : Z -> string)
    (fs : gmap string string) (file_path : string) :
  DocumentProcessor.chunk_overlap self < DocumentProcessor.chunk_size self ->
  exists fuel0 out, forall fuel, (fuel0 <= fuel)%nat ->
    DocumentProcessor.process_file fuel self clock fs file_path = Some out.
Proof.
  intros Hstep. unfold DocumentProcessor.process_file.
  destruct (negb _); [by exists 0%nat, (Py.Raised (Py.FileNotFoundError file_path)) |].
  match goal with
  | |- context [match ?read with Py.Returned _ => _ | Py.Raised _ => _ end] =>
      destruct read as [content | e]
  end; [| by exists 0%nat, (Py.Returned [])].
  destruct (chunk_loop_terminates self clock (encode content)
              (DocumentProcessor.path_name file_path) (S (length (encode content))) 0 0 [])
    as [chunks Hrun]; [lia | lia |].
  exists (S (length (encode content))), (Py.Returned chunks). intros fuel Hle.
  unfold DocumentProcessor._chunk_content.
  by rewrite (chunk_loop_mono self clock (encode content) _ _ fuel 0 0 [] chunks Hle Hrun).
Qed.

Lemma process_upload_returns (fs : gmap string string) (f : App.UploadedFile) (db : Database) :
  exists fuel0 out, forall fuel, (fuel0 <= fuel)%nat ->
    App.process_upload fuel fs f db = Some out.
Proof.
  destruct (process_file_returns App.processor (App.clock f)
              (<[App.tmp_path f := App.getvalue f]> fs) (App.tmp_path f))
    as (fuel0 & out & Hout); [cbn; lia |].
  exists fuel0. destruct out as [[| c chunks] | e].
  - eexists. intros fuel Hle. unfold App.process_upload. by rewrite (Hout fuel Hle).
  - destruct (VectorStore.add_documents
                (map (fun chunk => set_source chunk (App.name f)) (c :: chunks)) db)
      as [[[] | e] db1] eqn:Hadd.
    + eexists. intros fuel Hle. unfold App.process_upload. rewrite (Hout fuel Hle).
      cbn -[VectorStore.add_documents]. cbn [map] in Hadd. by rewrite Hadd.
    + eexists. intros fuel Hle. unfold App.process_upload. rewrite (Hout fuel Hle).
      cbn -[VectorStore.add_documents]. cbn [map] in Hadd. by rewrite Hadd.
  - eexists. intros fuel Hle. unfold App.process_upload. by rewrite (Hout fuel Hle).
Qed.

(** X19: the upload loop returns, given the chunker enough iterations. It
    reports, once each, in order and under the uploaded name, on the files
    before the first whose temporary file cannot be written, and does on
    them what the loop over them alone does; the exception of that write
    ends the loop, with no report for that file or the later ones. No
    other failure stops the loop: when every temporary file is written,
    every file is reported on. *)
Theorem X19_upload_loop_reports (fs : gmap string string)
    (uploaded_files : list App.UploadedFile) (db : Database) :
  exists fuel0 pre reports err db',
    (forall fuel, (fuel0 <= fuel)%nat ->
       App.upload_loop fuel fs uploaded_files db = Some (reports, err, db') /\
       App.process_uploads fuel fs pre db = Some (reports, db')) /\
    Forall (fun f => App.save_upload f = Py.Returned (App.tmp_path f)) pre /\
    map report_name reports = map App.name pre /\
    match err with
    | None => uploaded_files = pre
    | Some e =>
        exists f post, uploaded_files = pre ++ f :: post /\ App.save_upload f = Py.Raised e
    end.
Proof.
  revert db. induction uploaded_files as [| f rest IH]; intros db.
  - exists 0%nat, [], [], None, db. by repeat split.
  - destruct (App.save_upload f) as [p | e] eqn:Hsave.
    + assert (p = App.tmp_path f) as ->.
      { unfold App.save_upload in Hsave.
        destruct (write_tmp (App.tmp_path f) (App.getvalue f)) as [[] | e]; [| done].
        by injection Hsave as <-. }
      destruct (process_upload_returns fs f db) as (fuel1 & [r db1] & Hone).
      destruct (IH db1) as (fuel2 & pre & rs & err & db2 & Hloop & Hpre & Hnames & Hend).
      exists (fuel1 `max` fuel2)%nat, (f :: pre), (r :: rs), err, db2. repeat split.
      * cbn [App.upload_loop]. unfold App.upload_step.
        rewrite Hsave, (Hone fuel) by lia. cbn.
        destruct (Hloop fuel) as [-> _]; [lia | done].
      * cbn [App.process_uploads]. rewrite (Hone fuel) by lia. cbn.
        destruct (Hloop fuel) as [_ ->]; [lia | done].
      * by constructor.
      * cbn. f_equal; [| done].
        by destruct (process_upload_cases _ _ _ _ _ _ (Hone fuel1 ltac:(lia))).
      * destruct err as [e |]; [| by rewrite Hend].
        destruct Hend as (g & post & -> & Hg). by exists g, post.
    + exists 0%nat, [], [], (Some e), db. repeat split.
      * cbn [App.upload_loop]. unfold App.upload_step. by rewrite Hsave.
      * constructor.
      * by exists f, rest.
Qed.

End UploadLoop.

(** * Runs of the further properties in the concrete environment *)

Lemma Forall_chunk_ok `{Embedder} (chunks : list Chunk) :
  forallb chunk_ok_b chunks = true -> Forall chunk_ok chunks.
Proof.
  intros Hall. apply Forall_forall. intros c Hc%list_elem_of_In.
  rewrite forallb_forall in Hall. specialize (Hall c Hc).
  unfold chunk_ok_b in Hall. unfold chunk_ok.
  destruct (VectorStore.get_embedding (text c)) as [emb |]; [| done].
  exists emb. split; [done |]. by apply bool_decide_eq_true_1 in Hall.
Qed.

Section FurtherRuns.
Import Demo.

(** Ten tokens, window 4, overlap 1: chunks of 4, 4 and 4 tokens. *)
Lemma X1_witness :
  Forall (fun c => 1 <= token_count (metadata c) <= DocumentProcessor.chunk_size small)
         doc_chunks.
Proof.
  refine (proj1 (X1_chunk_sizes small epoch "abcdefghij" "doc.txt" 11 doc_chunks _ _)).
  - cbn. lia.
  - vm_compute. reflexivity.
Defined.

Lemma X2_witness :
  flat_map (fresh_tokens small (encode "abcdefghij"))
           (Py.range 0 (Z.of_nat (length doc_chunks)))
  = encode "abcdefghij".
Proof.
  refine (proj2 (X2_windows_rebuild_tokens small epoch "abcdefghij" "doc.txt" 11 doc_chunks _ _)).
  - cbn. lia.
  - vm_compute. reflexivity.
Defined.

(** The file a_1 at position 2 and the file a at position 12. *)
Lemma X3_witness :
  Retriever._generate_chunk_id "a_1" 2 = md5 (id_key "a_1" 2) /\
  Retriever._generate_chunk_id "a" 12 = md5 (id_key "a" 12) /\
  id_key "a_1" 2 <> id_key "a" 12.
Proof. apply X3_hashed_texts_differ. intros [=]. Defined.

Lemma X5_witness :
  Forall (fun c =>
            source (metadata c) = DocumentProcessor.path_name "/data/sub/report.TXT" /\
            id c = Retriever._generate_chunk_id
                     (DocumentProcessor.path_name "/data/sub/report.TXT")
                     (chunk_index (metadata c)))
         report_chunks.
Proof.
  apply (X5_process_file_names_chunks 11 small epoch fs_docs). vm_compute. reflexivity.
Defined.

(** Two chunks with one id: the second replaces the first. *)
Lemma X6_witness :
  exists db',
    VectorStore.add_documents [good_chunk; newer_chunk] empty_db = (Py.Returned tt, db') /\
    content <$> documents db' !! id newer_chunk = Some "HELLO"%string.
Proof.
  destruct (X6_add_documents_upserts [good_chunk; newer_chunk] empty_db)
    as (db' & Hadd & _ & Hlast).
  - apply Forall_chunk_ok. vm_compute. reflexivity.
  - exists db'. split; [exact Hadd |].
    destruct (Hlast [good_chunk] newer_chunk [] eq_refl) as (emb & _ & ->).
    + intros Hin. by apply elem_of_nil in Hin.
    + reflexivity.
Defined.

Lemma X8_witness :
  exists db1 db2,
    VectorStore.add_documents ([good_chunk] ++ newer_chunk :: []) empty_db
    = (Py.Returned tt, db1) /\
    VectorStore.get_chunks_by_ids [id newer_chunk] db1
    = (Py.Returned [ {| id := id newer_chunk; text := text newer_chunk;
                        metadata := metadata newer_chunk;
                        embedding := None; score := None |} ], db2).
Proof.
  apply (X8_add_then_get_by_id [good_chunk] newer_chunk [] empty_db).
  - apply Forall_chunk_ok. vm_compute. reflexivity.
  - intros Hin. by apply elem_of_nil in Hin.
Defined.

Lemma X9_witness :
  exists db1 db2,
    VectorStore.add_documents doc_chunks empty_db = (Py.Returned tt, db1) /\
    VectorStore.delete_document "doc.txt" db1 = (Py.Returned tt, db2) /\
    documents db2 = documents empty_db.
Proof.
  apply (X9_add_then_delete_restores "doc.txt" doc_chunks empty_db).
  - apply Forall_chunk_ok. vm_compute. reflexivity.
  - apply (bool_decide_unpack _). vm_compute. exact I.
  - apply Forall_forall. intros c _. apply lookup_empty.
  - intros i row Hrow. exfalso. revert Hrow. apply lookup_empty_Some.
Defined.

Lemma X11_witness :
  exists res db',
    VectorStore.query "abcd" 2 doc_db = (Py.Returned res, db') /\ NoDup (map id res).
Proof.
  destruct (X11_query_returns_the_nearest "abcd" 2 doc_db
              (repeat (inject_Z 1121) VectorStore.EMBEDDING_DIM))
    as (res & db' & Hq & Hnodup & _).
  - vm_compute. reflexivity.
  - lia.
  - exists res, db'. split; [exact Hq | exact Hnodup].
Defined.

(** The ids of chunks 1 and 0, asked for in two ways. *)
Lemma X12_witness :
  exists res1 res2,
    (VectorStore.get_chunks_by_ids [md5 "doc.txt_1"; md5 "doc.txt_0"; md5 "doc.txt_1"] doc_db).1
    = Py.Returned res1 /\
    (VectorStore.get_chunks_by_ids [md5 "doc.txt_0"; md5 "doc.txt_1"] doc_db).1
    = Py.Returned res2 /\
    res1 ≡ₚ res2.
Proof.
  apply X12_get_chunks_by_ids_ignores_order. intros i.
  rewrite !elem_of_cons, !elem_of_nil. tauto.
Defined.

Lemma X14_witness :
  Forall (fun r =>
            Forall (fun c => id c ∉ map (fun r' => id (primary r')) doc_results)
                   (before (context r) ++ after (context r)))
         doc_results.
Proof.
  apply (X14_primary_never_in_context "abcd" 1 1 doc_db
           (Retriever.retrieve "abcd" 1 1 doc_db).2).
  vm_compute. reflexivity.
Defined.

Lemma X15_witness :
  Forall (fun r =>
            Z.of_nat (length (before (context r))) <= Z.max 0 1 /\
            Z.of_nat (length (after (context r))) <= Z.max 0 1)
         doc_results.
Proof.
  refine (proj1 (X15_context_is_bounded "abcd" 1 1 doc_db
                   (Retriever.retrieve "abcd" 1 1 doc_db).2 doc_results _)).
  vm_compute. reflexivity.
Defined.

(** Chunk 0 is the primary chunk; chunk 1 is stored and is returned after
    it. *)
Lemma X16_witness :
  VectorStore.payload
    (Retriever._generate_chunk_id (source (metadata (primary first_result)))
       (chunk_index (metadata (primary first_result)) + 1), doc_row1)
  ∈ after (context first_result).
Proof.
  refine (proj2 (X16_stored_neighbours_are_returned "abcd" 1 1 doc_db
                   (Retriever.retrieve "abcd" 1 1 doc_db).2 doc_results first_result 1
                   doc_row1 _ _ _) _ _).
  - vm_compute. reflexivity.
  - apply list_elem_of_lookup. exists 0%nat. vm_compute. reflexivity.
  - lia.
  - vm_compute. reflexivity.
  - apply (bool_decide_unpack _). vm_compute. exact I.
Defined.

Lemma X17_witness :
  occurs_in ("TARGET CHUNK: " +:+ text (primary first_result))
            (RAGPipeline._format_context doc_results).
Proof.
  refine (proj1 (proj2 (X17_format_context_holds_every_text doc_results first_result _))).
  apply list_elem_of_lookup. exists 0%nat. vm_compute. reflexivity.
Defined.

(** A batch of doc.txt, a file whose name holds a slash, and notes.xyz:
    the loop ends at the second file. *)
Example scenario_refused_upload :
  App.upload_loop 3 ∅ [upload; nested_upload; notes_upload] empty_db
  = Some ([App.Indexed "doc.txt" 2],
          Some (Py.FileNotFoundError "/tmp/tmpqq11rr22_a/b.txt"), uploaded_db).
Proof. vm_compute. reflexivity. Qed.

(** A file of an unknown type, uploaded to the table of the ten-token
    document. *)
Lemma X20_witness :
  exists reports db',
    App.process_uploads 3 ∅ [notes_upload] doc_db = Some (reports, db') /\
    documents db' = documents doc_db.
Proof.
  assert (App.process_uploads 3 ∅ [notes_upload] doc_db
          = Some ([App.NoContent "notes.xyz"], doc_db)) as Hrun.
  { vm_compute. reflexivity. }
  eexists _, _. split; [exact Hrun |].
  apply (X20_unindexed_files_change_nothing 3 ∅ [notes_upload] doc_db _ _ Hrun).
  repeat constructor. intros n k. discriminate.
Defined.

Lemma X21_witness :
  documents empty_db !! md5 "tmpab12cd34_doc.txt_1" = Some uploaded_row1 \/
  (source (row_metadata uploaded_row1) = App.name upload /\
   md5 "tmpab12cd34_doc.txt_1"
   = Retriever._generate_chunk_id ("tmp" +:+ App.tmp_token upload +:+ "_" +:+ App.name upload)
       (chunk_index (row_metadata uploaded_row1))).
Proof.
  apply (X21_upload_ids_use_temporary_name 3 ∅ upload empty_db uploaded_db
           (App.Indexed "doc.txt" 2)).
  - vm_compute. reflexivity.
  - vm_compute. reflexivity.
  - vm_compute. reflexivity.
Defined.

End FurtherRuns.
